(** * The event-driven pipeline page of TestLab-AI (frontend, [Index.tsx])

    The page component keeps the state of one pipeline run in React state
    atoms and changes them from four places: the three callbacks it hands to
    [apiClient.runPipelineEventDriven] (one per progress event, one for the
    terminal result, one for a stream error) and the playback handlers
    ([handlePlay], [handleRetryAgent], [handleSkipAgent]).  This file embeds
    those functions as state transformers and states what they do to the
    step cursor, the per-agent status table, the failed-agent marker and the
    data folded from event payloads. *)

From Stdlib Require Import ZArith QArith.
From stdpp Require Import gmap strings list fin_maps pretty.

Set Warnings "-register-all".
#[local] Open Scope Z_scope.

(** ** JavaScript values

    Event payloads and the terminal result are parsed JSON and are read
    without any check of their shape, so they are modelled untyped.  A
    number is the rational its wire literal denotes. *)

Inductive JSON : Type :=
  | JUndefined
  | JNull
  | JBool (b : bool)
  | JNum (q : Q)
  | JStr (s : string)
  | JArr (l : list JSON)
  | JObj (m : gmap string JSON).

Module JS.

(** [if (v)], [!v], [v || w]: every value is truthy but [undefined],
    [null], [false], [0] and the empty string. *)
Definition truthy (v : JSON) : bool :=
  match v with
  | JUndefined | JNull => false
  | JBool b => b
  | JNum q => negb (Qnum q =? 0)
  | JStr s => negb (bool_decide (s = ""))
  | JArr _ | JObj _ => true
  end.

(** [v || w] *)
Definition or (v w : JSON) : JSON := if truthy v then v else w.

Definition num_of_nat (n : nat) : JSON := JNum (inject_Z (Z.of_nat n)).

Fixpoint chars (s : string) : list JSON :=
  match s with
  | EmptyString => []
  | String c s' => JStr (String c EmptyString) :: chars s'
  end.

Definition indexed (l : list JSON) : gmap string JSON :=
  list_to_map (imap (λ i v, (pretty i, v)) l).

(** The own enumerable properties of a value, as an object spread
    [{...v}] copies them: the entries of an object, the elements of an
    array and the characters of a string under their decimal indices,
    nothing for the other values. *)
Definition own_props (v : JSON) : gmap string JSON :=
  match v with
  | JObj m => m
  | JArr l => indexed l
  | JStr s => indexed (chars s)
  | _ => ∅
  end.

(** [{...a, ...b}]: the properties of [b] win. *)
Definition spread (a b : JSON) : JSON := JObj (own_props b ∪ own_props a).

(** [v.k] and [v[0]] (with [k = "0"]).  Reading a property of [undefined]
    or [null] raises a TypeError, which is [None] here; a property that a
    value does not have reads as [undefined]. *)
Definition get (v : JSON) (k : string) : option JSON :=
  match v with
  | JUndefined | JNull => None
  | JArr l =>
      Some (if bool_decide (k = "length") then num_of_nat (length l)
            else default JUndefined (indexed l !! k))
  | JStr s =>
      Some (if bool_decide (k = "length") then num_of_nat (String.length s)
            else default JUndefined (indexed (chars s) !! k))
  | _ => Some (default JUndefined (own_props v !! k))
  end.

(** [v?.k]: [undefined] instead of the TypeError. *)
Definition get_opt (v : JSON) (k : string) : JSON :=
  default JUndefined (get v k).

End JS.

(** What the component takes from the JavaScript runtime and the clock. *)
Record Runtime : Type := {
  (** the string a template literal [`${v}`] puts in place of [v] *)
  render : JSON → string;
  (** ToNumber of a string, [None] for NaN; used when [>] coerces *)
  strToNumber : string → option Q;
  (** [new Date(ts).toLocaleTimeString()] *)
  localeTime : string → string;
  (** [new Date().toLocaleTimeString()] at the k-th reading of the clock *)
  localeNow : nat → string;
  (** [`${Date.now()}`] at the k-th reading of the clock *)
  dateNow : nat → string;
  (** [new Date().toISOString()] at the k-th reading of the clock *)
  isoNow : nat → string
}.

(** [v > 0], with JavaScript's coercion of [v] to a number. *)
Definition js_gt0 (rt : Runtime) (v : JSON) : bool :=
  match v with
  | JNum q => 0 <? Qnum q
  | JBool b => b
  | JUndefined | JNull => false
  | JStr s => match strToNumber rt s with Some q => 0 <? Qnum q | None => false end
  | JArr _ | JObj _ =>
      match strToNumber rt (render rt v) with Some q => 0 <? Qnum q | None => false end
  end.

(** ** Events and component state *)

(** [AgentEvent.status] *)
Inductive EventStatus : Type := Started | Processing | Success | Failed.

Definition status_text (st : EventStatus) : string :=
  match st with
  | Started => "started"
  | Processing => "processing"
  | Success => "success"
  | Failed => "failed"
  end.

(** Modelled from the spec: the type [AgentEvent] is declared in
    [@/lib/api-client], which is not among the sources; the fields are those
    of the wire shape [{agent, status, timestamp, payload?, error?}].  An
    absent [payload] is [JUndefined]. *)
Record AgentEvent : Type := mkEvent {
  agent : string;
  status : EventStatus;
  timestamp : string;
  payload : JSON;
  error : option string
}.

(** The values of [stepStatuses]. *)
Inductive StepStatus : Type := pending | processing | completed | error_.

(** [realtimeData]: four optional keys. *)
Record RealtimeData : Type := mkRealtime {
  overview : option JSON;
  pipeline_json : option JSON;
  rt_logs : option JSON;
  improved_code : option JSON
}.

Definition emptyRealtime : RealtimeData := mkRealtime None None None None.

(** What leaves the component: the one call it makes on the API client and
    the toasts it raises. *)
Inductive Effect : Type :=
  | RunPipelineEventDriven (experimentData : JSON)
  | Toast (title description : string) (destructive : bool).

(** The state atoms that the pipeline handlers read or write ([code],
    [selectedNode] and [theme] are left to the editor and the theme toggle),
    followed by the number of clock readings made so far and the trace of
    effects. *)
Record State : Type := mkState {
  pipelineData : JSON;
  isRunning : bool;
  isPaused : bool;
  currentStep : Z;
  failedAgent : option string;
  logs : list string;
  improvedCode : JSON;
  pipelineResult : JSON;
  stepStatuses : gmap string StepStatus;
  realtimeData : RealtimeData;
  improvedFiles : JSON;
  ticks : nat;
  effects : list Effect
}.

(** The [useState] initial values, for a page whose editor content has been
    parsed into [pd] ([JNull] before the first parse). *)
Definition initialState (pd : JSON) : State :=
  {| pipelineData := pd; isRunning := false; isPaused := false;
     currentStep := 0; failedAgent := None; logs := [];
     improvedCode := JStr ""; pipelineResult := JNull; stepStatuses := ∅;
     realtimeData := emptyRealtime; improvedFiles := JArr [];
     ticks := 0; effects := [] |}.

Definition set_isRunning (v : bool) (s : State) : State :=
  {| pipelineData := pipelineData s; isRunning := v; isPaused := isPaused s;
     currentStep := currentStep s; failedAgent := failedAgent s;
     logs := logs s; improvedCode := improvedCode s;
     pipelineResult := pipelineResult s; stepStatuses := stepStatuses s;
     realtimeData := realtimeData s; improvedFiles := improvedFiles s;
     ticks := ticks s; effects := effects s |}.

Definition set_isPaused (v : bool) (s : State) : State :=
  {| pipelineData := pipelineData s; isRunning := isRunning s; isPaused := v;
     currentStep := currentStep s; failedAgent := failedAgent s;
     logs := logs s; improvedCode := improvedCode s;
     pipelineResult := pipelineResult s; stepStatuses := stepStatuses s;
     realtimeData := realtimeData s; improvedFiles := improvedFiles s;
     ticks := ticks s; effects := effects s |}.

Definition set_currentStep (v : Z) (s : State) : State :=
  {| pipelineData := pipelineData s; isRunning := isRunning s;
     isPaused := isPaused s; currentStep := v; failedAgent := failedAgent s;
     logs := logs s; improvedCode := improvedCode s;
     pipelineResult := pipelineResult s; stepStatuses := stepStatuses s;
     realtimeData := realtimeData s; improvedFiles := improvedFiles s;
     ticks := ticks s; effects := effects s |}.

Definition set_failedAgent (v : option string) (s : State) : State :=
  {| pipelineData := pipelineData s; isRunning := isRunning s;
     isPaused := isPaused s; currentStep := currentStep s; failedAgent := v;
     logs := logs s; improvedCode := improvedCode s;
     pipelineResult := pipelineResult s; stepStatuses := stepStatuses s;
     realtimeData := realtimeData s; improvedFiles := improvedFiles s;
     ticks := ticks s; effects := effects s |}.

Definition set_logs (v : list string) (s : State) : State :=
  {| pipelineData := pipelineData s; isRunning := isRunning s;
     isPaused := isPaused s; currentStep := currentStep s;
     failedAgent := failedAgent s; logs := v; improvedCode := improvedCode s;
     pipelineResult := pipelineResult s; stepStatuses := stepStatuses s;
     realtimeData := realtimeData s; improvedFiles := improvedFiles s;
     ticks := ticks s; effects := effects s |}.

Definition set_improvedCode (v : JSON) (s : State) : State :=
  {| pipelineData := pipelineData s; isRunning := isRunning s;
     isPaused := isPaused s; currentStep := currentStep s;
     failedAgent := failedAgent s; logs := logs s; improvedCode := v;
     pipelineResult := pipelineResult s; stepStatuses := stepStatuses s;
     realtimeData := realtimeData s; improvedFiles := improvedFiles s;
     ticks := ticks s; effects := effects s |}.

Definition set_pipelineResult (v : JSON) (s : State) : State :=
  {| pipelineData := pipelineData s; isRunning := isRunning s;
     isPaused := isPaused s; currentStep := currentStep s;
     failedAgent := failedAgent s; logs := logs s;
     improvedCode := improvedCode s; pipelineResult := v;
     stepStatuses := stepStatuses s; realtimeData := realtimeData s;
     improvedFiles := improvedFiles s; ticks := ticks s;
     effects := effects s |}.

Definition set_stepStatuses (v : gmap string StepStatus) (s : State) : State :=
  {| pipelineData := pipelineData s; isRunning := isRunning s;
     isPaused := isPaused s; currentStep := currentStep s;
     failedAgent := failedAgent s; logs := logs s;
     improvedCode := improvedCode s; pipelineResult := pipelineResult s;
     stepStatuses := v; realtimeData := realtimeData s;
     improvedFiles := improvedFiles s; ticks := ticks s;
     effects := effects s |}.

Definition set_realtimeData (v : RealtimeData) (s : State) : State :=
  {| pipelineData := pipelineData s; isRunning := isRunning s;
     isPaused := isPaused s; currentStep := currentStep s;
     failedAgent := failedAgent s; logs := logs s;
     improvedCode := improvedCode s; pipelineResult := pipelineResult s;
     stepStatuses := stepStatuses s; realtimeData := v;
     improvedFiles := improvedFiles s; ticks := ticks s;
     effects := effects s |}.

Definition set_improvedFiles (v : JSON) (s : State) : State :=
  {| pipelineData := pipelineData s; isRunning := isRunning s;
     isPaused := isPaused s; currentStep := currentStep s;
     failedAgent := failedAgent s; logs := logs s;
     improvedCode := improvedCode s; pipelineResult := pipelineResult s;
     stepStatuses := stepStatuses s; realtimeData := realtimeData s;
     improvedFiles := v; ticks := ticks s; effects := effects s |}.

Definition set_ticks (v : nat) (s : State) : State :=
  {| pipelineData := pipelineData s; isRunning := isRunning s;
     isPaused := isPaused s; currentStep := currentStep s;
     failedAgent := failedAgent s; logs := logs s;
     improvedCode := improvedCode s; pipelineResult := pipelineResult s;
     stepStatuses := stepStatuses s; realtimeData := realtimeData s;
     improvedFiles := improvedFiles s; ticks := v; effects := effects s |}.

Definition set_effects (v : list Effect) (s : State) : State :=
  {| pipelineData := pipelineData s; isRunning := isRunning s;
     isPaused := isPaused s; currentStep := currentStep s;
     failedAgent := failedAgent s; logs := logs s;
     improvedCode := improvedCode s; pipelineResult := pipelineResult s;
     stepStatuses := stepStatuses s; realtimeData := realtimeData s;
     improvedFiles := improvedFiles s; ticks := ticks s; effects := v |}.

Definition set_overview (v : JSON) (d : RealtimeData) : RealtimeData :=
  mkRealtime (Some v) (pipeline_json d) (rt_logs d) (improved_code d).

Definition set_pipeline_json (v : JSON) (d : RealtimeData) : RealtimeData :=
  mkRealtime (overview d) (Some v) (rt_logs d) (improved_code d).

Definition set_improved_code (v : JSON) (d : RealtimeData) : RealtimeData :=
  mkRealtime (overview d) (pipeline_json d) (rt_logs d) (Some v).

(** ** Handlers as computations

    The setters a handler calls are queued by React and applied in the
    order of the calls, a functional update [setX(prev => ...)] to the value
    the earlier ones left; the one handler that reads atoms
    ([handleRetryAgent], through [handlePlay]) reads atoms it has not set.
    So a handler is a state transformer that applies its updates in order.
    It runs to its end or stops at a TypeError; the updates queued before
    the error stay queued, so both outcomes carry a state.  What the API
    client does with an error raised in a callback is not in the sources. *)

Inductive Res (A : Type) : Type :=
  | Ret (a : A) (s : State)
  | Throw (s : State).
Arguments Ret {A} a s.
Arguments Throw {A} s.

Definition M (A : Type) : Type := State → Res A.

Definition ret {A} (a : A) : M A := λ s, Ret a s.

Definition bind {A B} (c : M A) (k : A → M B) : M B :=
  λ s, match c s with
       | Ret a s' => k a s'
       | Throw s' => Throw s'
       end.

Definition modify (f : State → State) : M unit := λ s, Ret tt (f s).

Definition read {A} (f : State → A) : M A := λ s, Ret (f s) s.

(** A property read: the value, or the TypeError. *)
Definition prop (v : JSON) (k : string) : M JSON :=
  λ s, match JS.get v k with
       | Some x => Ret x s
       | None => Throw s
       end.

Definition when (b : bool) (c : M unit) : M unit := if b then c else ret tt.

Definition final {A} (r : Res A) : State :=
  match r with
  | Ret _ s => s
  | Throw s => s
  end.

Definition threw {A} (r : Res A) : bool :=
  match r with
  | Ret _ _ => false
  | Throw _ => true
  end.

Declare Scope handler_scope.
Delimit Scope handler_scope with handler.
Notation "x <- c ;; k" := (bind c (λ x, k))
  (at level 100, c at next level, k at level 200, right associativity)
  : handler_scope.
Notation "c ;; k" := (bind c (λ _, k))
  (at level 100, k at level 200, right associativity) : handler_scope.
#[local] Open Scope handler_scope.

(** ** The handlers of [Index.tsx] *)

Import JS.

(** [const stepOrder = [...]] in [runEventDrivenPipeline] *)
Definition stepOrder : list string :=
  ["server"; "coordinator"; "ingest_agent"; "diagnosis_agent";
   "ml_improvement_agent"; "eval_agent"; "planner_agent"].

Fixpoint indexOf_from (l : list string) (x : string) (i : Z) : Z :=
  match l with
  | [] => -1
  | y :: l' => if bool_decide (y = x) then i else indexOf_from l' x (i + 1)
  end.

(** [Array.prototype.indexOf]: the first position of [x], or [-1]. *)
Definition indexOf (l : list string) (x : string) : Z := indexOf_from l x 0.

Definition obj (l : list (string * JSON)) : JSON := JObj (list_to_map l).

(** The [legacyFile] literal built at both places that accept the
    single-file format. *)
Definition legacyFile (pipeline_id original_code code : JSON) : JSON :=
  obj [("pipeline_id", pipeline_id);
       ("file_path", JStr "models/legacy_model.py");
       ("original_code", original_code);
       ("improved_code", code);
       ("diff", JStr "# Diff will be generated");
       ("annotations",
        JArr [obj [("line", JNum (inject_Z 15)); ("type", JStr "add");
                   ("comment", JStr "Legacy format improvements")]]);
       ("summary", JStr "Legacy improvements applied")].

(** [!failedAgent]: [null] and the empty name are both falsy. *)
Definition no_failedAgent (fa : option string) : bool :=
  match fa with
  | None => true
  | Some a => bool_decide (a = "")
  end.

Definition statusOf (st : EventStatus) : StepStatus :=
  match st with
  | Success => completed
  | Failed => error_
  | _ => processing
  end.

Definition statusIcon (st : EventStatus) : string :=
  match st with
  | Processing => "⏳"
  | Success => "✅"
  | Failed => "❌"
  | Started => "🔄"
  end.

Definition is_success (st : EventStatus) : bool :=
  match st with Success => true | _ => false end.

Definition is_failed (st : EventStatus) : bool :=
  match st with Failed => true | _ => false end.

Section Handlers.

Variable rt : Runtime.

(** One reading of the clock. *)
Definition tick : M nat := λ s, Ret (ticks s) (set_ticks (S (ticks s)) s).

Definition addLog (message : string) : M unit :=
  k <- tick ;;
  modify (λ s, set_logs (logs s ++ ["[" +:+ localeNow rt k +:+ "] " +:+ message]) s).

Definition emit (e : Effect) : M unit :=
  modify (λ s, set_effects (effects s ++ [e]) s).

Definition setRealtimeData (f : RealtimeData → RealtimeData) : M unit :=
  modify (λ s, set_realtimeData (f (realtimeData s)) s).

(** The branch of the event callback for a success of
    [ml_improvement_agent]. *)
Definition extractImprovedFiles (p : JSON) : M unit :=
  improved_files <- prop p "improved_files" ;;
  if truthy improved_files then
    modify (set_improvedFiles improved_files) ;;
    setRealtimeData (set_improved_code improved_files) ;;
    len <- prop improved_files "length" ;;
    addLog ("📝 Generated " +:+ render rt len +:+ " improved files!") ;;
    when (js_gt0 rt len)
      (first <- prop improved_files "0" ;;
       c <- prop first "improved_code" ;;
       modify (set_improvedCode c))
  else
    code <- prop p "improved_code" ;;
    when (truthy code)
      (run_id <- prop p "run_id" ;;
       original <- prop p "original_code" ;;
       let legacy :=
         legacyFile (JS.or run_id (JStr "unknown"))
           (JS.or original (JStr "# Original code not available")) code in
       modify (set_improvedFiles (JArr [legacy])) ;;
       setRealtimeData (set_improved_code (JArr [legacy])) ;;
       modify (set_improvedCode code) ;;
       addLog "📝 Improved code generated!").

(** The first callback: [(event: AgentEvent) => { ... }]. *)
Definition onEvent (event : AgentEvent) : M unit :=
  modify (λ s, set_stepStatuses
                 (<[agent event := statusOf (status event)]> (stepStatuses s)) s) ;;
  when (is_success (status event) || is_failed (status event))
    (let stepIndex := indexOf stepOrder (agent event) in
     when (0 <=? stepIndex) (modify (set_currentStep (stepIndex + 1)))) ;;
  (let time := localeTime rt (timestamp event) in
   let message := get_opt (payload event) "message" in
   addLog ("[" +:+ time +:+ "] " +:+ statusIcon (status event) +:+ " "
           +:+ agent event +:+ ": "
           +:+ (if truthy message then render rt message
                else status_text (status event)))) ;;
  if is_failed (status event) then
    modify (set_failedAgent (Some (agent event))) ;;
    modify (set_isRunning false) ;;
    addLog ("❌ Agent " +:+ agent event +:+ " failed: "
            +:+ default "undefined" (error event))
  else
    when (truthy (payload event))
      (when (bool_decide (agent event = "ml_improvement_agent")
             && is_success (status event))
         (extractImprovedFiles (payload event)) ;;
       baseline <- prop (payload event) "baseline_metrics" ;;
       improved <- prop (payload event) "improved_metrics" ;;
       when (truthy baseline || truthy improved)
         (setRealtimeData
            (λ prev, set_overview
                       (spread (default JUndefined (overview prev))
                          (payload event)) prev))).

(** The improved files of the terminal result: the top-level array when
    it is not empty, else what [ml_improvement] carries. *)
Definition extractFinalFiles (result : JSON) : M unit :=
  files <- prop result "improved_code" ;;
  nonempty <- (if truthy files
               then len <- prop files "length" ;; ret (js_gt0 rt len)
               else ret false) ;;
  if (nonempty : bool) then
    modify (set_improvedFiles files) ;;
    first <- prop files "0" ;;
    c <- prop first "improved_code" ;;
    modify (set_improvedCode c) ;;
    len <- prop files "length" ;;
    addLog ("📝 Final improved code: " +:+ render rt len +:+ " files received!")
  else
    ml <- prop result "ml_improvement" ;;
    let ml_files := get_opt ml "improved_files" in
    if truthy ml_files then
      modify (set_improvedFiles ml_files) ;;
      len <- prop ml_files "length" ;;
      when (js_gt0 rt len)
        (first <- prop ml_files "0" ;;
         c <- prop first "improved_code" ;;
         modify (set_improvedCode c)) ;;
      addLog ("📝 Improved files from ML agent: " +:+ render rt len +:+ " files!")
    else
      let code := get_opt ml "improved_code" in
      when (truthy code)
        (run_id <- prop result "run_id" ;;
         original <- prop ml "original_code" ;;
         let legacy :=
           legacyFile (JS.or run_id (JStr "unknown"))
             (JS.or original (JStr "# Original code not available")) code in
         modify (set_improvedFiles (JArr [legacy])) ;;
         modify (set_improvedCode code) ;;
         addLog "📝 Improved code from ML agent received!").

(** The second callback: [(result: PipelineResponse) => { ... }]. *)
Definition onResult (result : JSON) : M unit :=
  modify (set_pipelineResult result) ;;
  modify (set_currentStep (Z.of_nat (length stepOrder))) ;;
  modify (set_isRunning false) ;;
  modify (set_failedAgent None) ;;
  ov <- prop result "overview" ;;
  when (truthy ov) (setRealtimeData (set_overview ov)) ;;
  pj <- prop result "pipeline_json" ;;
  when (truthy pj) (setRealtimeData (set_pipeline_json pj)) ;;
  ic <- prop result "improved_code" ;;
  when (truthy ic) (setRealtimeData (set_improved_code ic)) ;;
  extractFinalFiles result ;;
  addLog "🎉 Pipeline completed successfully!" ;;
  emit (Toast "Pipeline Completed"
          "All agents have finished processing your experiment." false).

(** The third callback: [(error: string) => { ... }]. *)
Definition onError (message : string) : M unit :=
  modify (set_isRunning false) ;;
  modify (set_failedAgent (Some "pipeline")) ;;
  addLog ("❌ Pipeline failed: " +:+ message) ;;
  emit (Toast "Pipeline Failed" message true).

(** [runEventDrivenPipeline] up to its [await]: the resets and the call
    that opens the stream. *)
Definition runEventDrivenPipeline (experimentData : JSON) : M unit :=
  modify (set_isRunning true) ;;
  modify (set_currentStep 0) ;;
  modify (set_stepStatuses ∅) ;;
  modify (set_improvedCode (JStr "")) ;;
  modify (set_pipelineResult JNull) ;;
  modify (set_failedAgent None) ;;
  modify (set_realtimeData emptyRealtime) ;;
  modify (set_improvedFiles (JArr [])) ;;
  addLog "🚀 Starting event-driven pipeline execution..." ;;
  emit (RunPipelineEventDriven experimentData).

(** The [catch] of [runEventDrivenPipeline]; [message] is the message of
    the caught [Error], [None] for another thrown value. *)
Definition onStartFailed (message : option string) : M unit :=
  modify (set_isRunning false) ;;
  modify (set_failedAgent (Some "pipeline")) ;;
  let errorMessage := default "Unknown error" message in
  addLog ("❌ Failed to start pipeline: " +:+ errorMessage) ;;
  emit (Toast "Failed to Start Pipeline" errorMessage true).

Definition sampleExperiment (run_stamp iso_stamp : string) : JSON :=
  obj [("run_id", JStr ("exp_" +:+ run_stamp));
       ("model", JStr "Sample ML Model");
       ("metrics",
        obj [("accuracy", JNum (75 # 100)); ("loss", JNum (45 # 100));
             ("f1_score", JNum (72 # 100)); ("precision", JNum (78 # 100));
             ("recall", JNum (68 # 100))]);
       ("hyperparameters",
        obj [("learning_rate", JNum (1 # 1000)); ("batch_size", JNum (32 # 1));
             ("epochs", JNum (50 # 1))]);
       ("timestamp", JStr iso_stamp)].

Definition handlePlay : M unit :=
  pd <- read pipelineData ;;
  if negb (truthy pd) then ret tt
  else
    step <- read currentStep ;;
    if step =? 0 then
      k1 <- tick ;;
      k2 <- tick ;;
      runEventDrivenPipeline (sampleExperiment (dateNow rt k1) (isoNow rt k2))
    else
      modify (set_isRunning true) ;;
      modify (set_isPaused false).

Definition handleRetryAgent : M unit :=
  fa <- read failedAgent ;;
  pd <- read pipelineData ;;
  if no_failedAgent fa || negb (truthy pd) then ret tt
  else
    addLog ("🔄 Retrying " +:+ default "" fa +:+ "...") ;;
    modify (set_failedAgent None) ;;
    handlePlay.

Definition handleSkipAgent : M unit :=
  fa <- read failedAgent ;;
  if no_failedAgent fa then ret tt
  else
    addLog ("⏭️ Skipping " +:+ default "" fa +:+ "...") ;;
    modify (set_failedAgent None) ;;
    modify (set_isRunning true) ;;
    modify (λ s, set_currentStep (currentStep s + 1) s).

(** The events of a stream handed to the first callback in order, up to
    one whose handling raises. *)
Fixpoint deliver (events : list AgentEvent) : M unit :=
  match events with
  | [] => ret tt
  | e :: rest => onEvent e ;; deliver rest
  end.

End Handlers.

(** ** What the statements below speak of *)

(** [preserves f c]: running [c], to its end or to an error, does not
    change the observation [f] of the state. *)
Definition preserves {A B} (f : State → A) (c : M B) : Prop :=
  ∀ s, f (final (c s)) = f s.

Section Observations.

Variable rt : Runtime.

(** The state after [addLog line]. *)
Definition logged (line : string) (s : State) : State :=
  set_logs (logs s ++ ["[" +:+ localeNow rt (ticks s) +:+ "] " +:+ line])
    (set_ticks (S (ticks s)) s).

(** The state that [handleRetryAgent] hands to [handlePlay]. *)
Definition retrying (a : string) (s : State) : State :=
  set_failedAgent None (logged ("🔄 Retrying " +:+ a +:+ "...") s).

End Observations.

(** The overview after an event that carries metrics. *)
Definition folded_overview (p : JSON) (s : State) : option JSON :=
  if truthy p
     && (truthy (get_opt p "baseline_metrics")
         || truthy (get_opt p "improved_metrics"))
  then Some (spread (default JUndefined (overview (realtimeData s))) p)
  else overview (realtimeData s).


(** A key of [realtimeData] after the terminal result: the value of the
    result when it is truthy, else the value already there. *)
Definition final_field (result : JSON) (k : string) (old : option JSON)
    : option JSON :=
  if truthy (get_opt result k) then Some (get_opt result k) else old.

Definition final_realtime (result : JSON) (d : RealtimeData) : RealtimeData :=
  {| overview := final_field result "overview" (overview d);
     pipeline_json := final_field result "pipeline_json" (pipeline_json d);
     rt_logs := rt_logs d;
     improved_code := final_field result "improved_code" (improved_code d) |}.

(** The state in which the improved files of the result are extracted. *)
Definition before_files (result : JSON) (s : State) : State :=
  set_realtimeData (final_realtime result (realtimeData s))
    (set_failedAgent None
       (set_isRunning false
          (set_currentStep (Z.of_nat (length stepOrder))
             (set_pipelineResult result s)))).

(** ** Scenario A: Ingest and Diagnose succeed, Improve fails

    The stream of a run in which every step of the order reports, up to
    the start of the Improve stage, and the failure that follows. *)

Definition at_ (a : string) (st : EventStatus) (p : JSON) : AgentEvent :=
  mkEvent a st "2025-01-01T12:00:00.000Z" p None.

Definition scenarioA_progress : list AgentEvent :=
  [at_ "server" Started JUndefined;
   at_ "server" Success JUndefined;
   at_ "coordinator" Started JUndefined;
   at_ "coordinator" Success JUndefined;
   at_ "ingest_agent" Started JUndefined;
   at_ "ingest_agent" Processing (obj [("message", JStr "Normalizing input")]);
   at_ "ingest_agent" Success (obj [("run_id", JStr "r1")]);
   at_ "diagnosis_agent" Started JUndefined;
   at_ "diagnosis_agent" Success
     (obj [("baseline_metrics", obj [("accuracy", JNum (65 # 100))])]);
   at_ "ml_improvement_agent" Started JUndefined].

Definition improve_failed : AgentEvent :=
  mkEvent "ml_improvement_agent" Failed "2025-01-01T12:00:05.000Z" JUndefined
    (Some "model unavailable").

(** A runtime to run the scenarios on: strings print as they are, numbers
    by their integer part (the scenarios print lengths only) and arrays as
    the empty array does; no string is a number, and the clock stands
    still. *)
Definition demo : Runtime :=
  {| render := λ v, match v with
                    | JStr s => s
                    | JNum q => pretty (Qnum q `div` Z.pos (Qden q))
                    | JBool b => if b then "true" else "false"
                    | JNull => "null"
                    | JUndefined => "undefined"
                    | JArr _ => ""
                    | JObj _ => "[object Object]"
                    end;
     strToNumber := λ _, None;
     localeTime := λ ts, String.substring 11 8 ts;
     localeNow := λ _, "12:00:00";
     dateNow := λ _, "1735732800000";
     isoNow := λ _, "2025-01-01T12:00:00.000Z" |}.

(** A page whose editor content has been parsed. *)
Definition page : State := initialState (obj [("nodes", JArr []); ("edges", JArr [])]).

(** [handlePlay] on that page: the run is open. *)
Definition started : State := final (handlePlay demo page).

(** Scenario A, to the failure of the Improve stage. *)
Definition halted : State :=
  final (onEvent demo improve_failed
           (final (deliver demo scenarioA_progress started))).

(** Scenario A before the failure: the cursor is at 4. *)
Definition improving : State := final (deliver demo scenarioA_progress started).


(** An improved file as the Improve stage reports it. *)
Definition fileA : JSON :=
  obj [("pipeline_id", JStr "r1");
       ("file_path", JStr "models/cnn_classifier_improved.py");
       ("original_code", JStr "model = build()");
       ("improved_code", JStr "model = build(dropout=0.5)");
       ("diff", JStr "+dropout");
       ("annotations", JArr []);
       ("summary", JStr "Added dropout")].

(** ** The other handlers of [Index.tsx] *)

Definition set_pipelineData (v : JSON) (s : State) : State :=
  {| pipelineData := v; isRunning := isRunning s; isPaused := isPaused s;
     currentStep := currentStep s; failedAgent := failedAgent s;
     logs := logs s; improvedCode := improvedCode s;
     pipelineResult := pipelineResult s; stepStatuses := stepStatuses s;
     realtimeData := realtimeData s; improvedFiles := improvedFiles s;
     ticks := ticks s; effects := effects s |}.

(** [const totalSteps = 7] *)
Definition totalSteps : Z := 7.

(** The page with the atom of the editor, which [handleClear] empties. *)
Record Page : Type := mkPage {
  code : string;
  atoms : State
}.

Definition handleClear (p : Page) : Page :=
  {| code := "";
     atoms := set_improvedCode (JStr "")
                (set_isPaused false
                   (set_isRunning false
                      (set_currentStep 0
                         (set_logs [] (set_pipelineData JNull (atoms p)))))) |}.

Section Playback.

Variable rt : Runtime.

(** [handleParse]; [parsed] is what [parsePipelineCode], of
    [@/lib/pipelineParser] and not among the sources, returns on the
    content of the editor. *)
Definition handleParse (parsed : JSON) : M unit :=
  modify (set_pipelineData parsed) ;;
  modify (set_logs []) ;;
  modify (set_currentStep 0) ;;
  modify (set_isRunning false) ;;
  modify (set_isPaused false) ;;
  addLog rt "✓ Pipeline parsed successfully".

Definition handlePause : M unit :=
  modify (set_isPaused true) ;;
  addLog rt "⏸ Simulation paused".

Definition handleStep : M unit :=
  pd <- read pipelineData ;;
  step <- read currentStep ;;
  if negb (truthy pd) || (totalSteps - 1 <=? step) then ret tt
  else
    modify (λ s, set_currentStep (currentStep s + 1) s) ;;
    modify (set_isRunning true) ;;
    modify (set_isPaused true).

Definition handleRestart : M unit :=
  modify (set_currentStep 0) ;;
  modify (set_isRunning false) ;;
  modify (set_isPaused false) ;;
  modify (set_logs []) ;;
  modify (set_failedAgent None) ;;
  modify (set_realtimeData emptyRealtime) ;;
  addLog rt "↺ Pipeline reset".

(** [n] presses of the Step button. *)
Fixpoint steps_pressed (n : nat) : M unit :=
  match n with
  | O => ret tt
  | S n' => handleStep ;; steps_pressed n'
  end.

End Playback.

(** ** The step list, [PipelineVisualization.tsx] *)

Module PipelineVisualization.

Record PipelineStep : Type := {
  id : string;
  title : string;
  description : string;
  details : JSON
}.

(** [const pipelineSteps], which the effect puts in [steps]. *)
Definition pipelineSteps : list PipelineStep :=
  [ {| id := "server"; title := "Start Server";
       description := "Initialize pipeline server";
       details := obj [("step", JStr "server")] |};
    {| id := "coordinator"; title := "Coordinator Agent";
       description := "Orchestrating pipeline workflow";
       details := obj [("step", JStr "coordinator")] |};
    {| id := "ingest"; title := "Ingest Agent";
       description := "Normalizing experiment data";
       details := obj [("step", JStr "ingest")] |};
    {| id := "diagnosis"; title := "Diagnosis Agent";
       description := "Analyzing metrics and detecting issues";
       details := obj [("step", JStr "diagnosis")] |};
    {| id := "ml_improvement"; title := "ML Improvement Agent";
       description := "Generating improvement recommendations";
       details := obj [("step", JStr "ml_improvement")] |};
    {| id := "evaluation"; title := "Evaluation Agent";
       description := "Evaluating current model state";
       details := obj [("step", JStr "evaluation")] |};
    {| id := "planner"; title := "Planner Agent";
       description := "Creating comprehensive action plan";
       details := obj [("step", JStr "planner")] |} ].

Definition getStepStatus (isRunning : bool) (currentStep index : Z)
    : StepStatus :=
  if negb isRunning then pending
  else if index <? currentStep then completed
  else if currentStep =? index then processing
  else pending.

(** The condition of the "Pipeline Completed" card. *)
Definition completionShown (isRunning : bool) (currentStep : Z)
    (steps : list PipelineStep) : bool :=
  isRunning && (Z.of_nat (length steps) <=? currentStep).

End PipelineVisualization.

(** What [Index] passes to the step list: [isRunning && !isPaused] and
    [currentStep]; the list has its seven steps once its effect has run. *)
Definition shownStatus (s : State) (index : Z) : StepStatus :=
  PipelineVisualization.getStepStatus
    (isRunning s && negb (isPaused s)) (currentStep s) index.

Definition shownCompletion (s : State) : bool :=
  PipelineVisualization.completionShown
    (isRunning s && negb (isPaused s)) (currentStep s)
    PipelineVisualization.pipelineSteps.

(** ** The buttons, [PlaybackControls.tsx] *)

Module PlaybackControls.

Inductive MainButton : Type := RunPipeline | Resume | Pause.

(** The first button: Play, labelled by the state, or Pause. *)
Definition mainButton (isRunning isPaused : bool) : MainButton :=
  if negb isRunning || isPaused then
    if isRunning && isPaused then Resume else RunPipeline
  else Pause.

(** [canRetry && onRetry], [canRetry && onSkip]; [given] says that the
    handler is passed. *)
Definition recoveryShown (canRetry given : bool) : bool := canRetry && given.

End PlaybackControls.

(** [canRetry={!!failedAgent}], with both handlers passed; the controls are
    rendered only where a pipeline is parsed. *)
Definition retryOffered (s : State) : bool :=
  truthy (pipelineData s)
  && PlaybackControls.recoveryShown (negb (no_failedAgent (failedAgent s))) true.

Definition playButton (s : State) : PlaybackControls.MainButton :=
  PlaybackControls.mainButton (isRunning s) (isPaused s).

(** ** The Improved Code tab, [DetailPanel.tsx] *)

Module DetailPanel.

Section Files.

(** The props are taken at the shapes [DetailPanelProps] declares:
    [improvedFiles] an array of files, [realtimeData.improved_code] an
    array or absent, [improvedCode] a string.  [File] is the type of the
    elements. *)
Variable File : Type.

(** [improvedFiles.length > 0 || realtimeData.improved_code?.length > 0
    || improvedCode]: something is there to show. *)
Definition hasImproved (improvedFiles : list File)
    (improved_code : option (list File)) (improvedCode : string) : bool :=
  (0 <? length improvedFiles)%nat
  || match improved_code with
     | Some l => (0 <? length l)%nat
     | None => false
     end
  || negb (bool_decide (improvedCode = "")).

(** [improvedFiles.length || realtimeData.improved_code?.length || 1],
    the number in the header. *)
Definition fileCount (improvedFiles : list File)
    (improved_code : option (list File)) : nat :=
  if (length improvedFiles =? 0)%nat then
    match improved_code with
    | Some l => if (length l =? 0)%nat then 1%nat else length l
    | None => 1%nat
    end
  else length improvedFiles.

(** The files mapped to blocks:
    [improvedFiles.length > 0 ? improvedFiles : realtimeData.improved_code || []]. *)
Definition renderedFiles (improvedFiles : list File)
    (improved_code : option (list File)) : list File :=
  if (0 <? length improvedFiles)%nat then improvedFiles
  else default [] improved_code.

(** The condition of the "Legacy Format" block. *)
Definition legacyShown (improvedFiles : list File)
    (improved_code : option (list File)) (improvedCode : string) : bool :=
  (length improvedFiles =? 0)%nat
  && negb match improved_code with
          | Some l => negb (length l =? 0)%nat
          | None => false
          end
  && negb (bool_decide (improvedCode = "")).

End Files.

(** [s.split('/')] *)
Fixpoint split_slash (s : string) : list string :=
  match s with
  | EmptyString => [EmptyString]
  | String c s' =>
      if bool_decide (String c EmptyString = "/") then EmptyString :: split_slash s'
      else match split_slash s' with
           | h :: t => String c h :: t
           | [] => [String c EmptyString]
           end
  end.

(** [file.file_path.split('/').pop() || 'improved-code.py'], the name
    under which a file is downloaded. *)
Definition downloadName (file_path : string) : string :=
  let name := default "" (last (split_slash file_path)) in
  if bool_decide (name = "") then "improved-code.py" else name.

End DetailPanel.

(** ** What the further statements speak of *)

(** The status that the events of a stream leave for an agent: that of
    the last event that names it, [old] if none does. *)
Fixpoint lastStatus (events : list AgentEvent) (a : string)
    (old : option StepStatus) : option StepStatus :=
  match events with
  | [] => old
  | e :: rest =>
      lastStatus rest a
        (if bool_decide (agent e = a) then Some (statusOf (status e)) else old)
  end.

(** Running [c] only appends to the log. *)
Definition log_grows {B} (c : M B) : Prop :=
  ∀ s, logs s `prefix_of` logs (final (c s)).



(** The atoms that hold the state of a run: everything but the parsed
    pipeline, the pause flag, the log, the clock and the trace of effects. *)
Definition run_atoms (s : State) :=
  (isRunning s, currentStep s, failedAgent s, improvedCode s,
   pipelineResult s, stepStatuses s, realtimeData s, improvedFiles s).

(** Two runs of [c] from states with the same run atoms end alike: both
    return the same value or both raise, with the same run atoms again. *)
Definition run_local {B} (c : M B) : Prop :=
  ∀ s1 s2, run_atoms s1 = run_atoms s2 →
    match c s1, c s2 with
    | Ret b1 s1', Ret b2 s2' => b1 = b2 ∧ run_atoms s1' = run_atoms s2'
    | Throw s1', Throw s2' => run_atoms s1' = run_atoms s2'
    | _, _ => False
    end.

(** Whether a path has a slash. *)
Fixpoint has_slash (s : string) : bool :=
  match s with
  | EmptyString => false
  | String c s' => bool_decide (String c EmptyString = "/") || has_slash s'
  end.

(** * Properties *)

Arguments indexOf : simpl never.
Arguments js_gt0 : simpl never.
Arguments truthy : simpl never.
Arguments get : simpl never.
Arguments get_opt : simpl never.
Arguments spread : simpl never.
Arguments legacyFile : simpl never.
Arguments sampleExperiment : simpl never.

(** ** The runtime operations *)

Lemma truthy_get (v : JSON) (k : string) :
  truthy v = true → get v k = Some (get_opt v k).
Proof. unfold get_opt. by destruct v. Qed.



Lemma indexOf_from_notin (l : list string) (x : string) (i : Z) :
  x ∉ l → indexOf_from l x i = -1.
Proof.
  revert i. induction l as [|y l IH]; intros i Hx; [done|].
  apply not_elem_of_cons in Hx as [Hne Hl]. cbn.
  rewrite bool_decide_eq_false_2 by congruence. by apply IH.
Qed.

Lemma indexOf_from_in (l : list string) (x : string) (i : Z) :
  x ∈ l → i ≤ indexOf_from l x i < i + Z.of_nat (length l).
Proof.
  revert i. induction l as [|y l IH]; intros i Hx.
  - by apply elem_of_nil in Hx.
  - cbn [indexOf_from length]. case_bool_decide as Hy; [lia|].
    apply elem_of_cons in Hx as [->|Hl]; [done|].
    specialize (IH (i + 1) Hl). lia.
Qed.

Lemma indexOf_notin (l : list string) (x : string) : x ∉ l → indexOf l x = -1.
Proof. apply indexOf_from_notin. Qed.

Lemma indexOf_in (l : list string) (x : string) :
  x ∈ l → 0 ≤ indexOf l x < Z.of_nat (length l).
Proof. intros Hx. apply (indexOf_from_in l x 0 Hx). Qed.

(** ** Running a handler *)

Lemma final_bind {A B} (c : M A) (k : A → M B) (s : State) :
  final (bind c k s)
  = match c s with
    | Ret a s' => final (k a s')
    | Throw s' => s'
    end.
Proof. unfold bind. by destruct (c s). Qed.

Lemma threw_bind {A B} (c : M A) (k : A → M B) (s : State) :
  threw (bind c k s)
  = match c s with
    | Ret a s' => threw (k a s')
    | Throw _ => true
    end.
Proof. unfold bind. by destruct (c s). Qed.

Section Frame.

Context {A : Type} (f : State → A).

Lemma preserves_ret {B} (b : B) : preserves f (ret b).
Proof. by intros s. Qed.

Lemma preserves_bind {B C} (c : M B) (k : B → M C) :
  preserves f c → (∀ b, preserves f (k b)) → preserves f (bind c k).
Proof.
  intros Hc Hk s. rewrite final_bind. specialize (Hc s).
  destruct (c s) as [b s'|s']; cbn in *; [|done]. by rewrite Hk.
Qed.

Lemma preserves_modify (g : State → State) :
  (∀ s, f (g s) = f s) → preserves f (modify g).
Proof. intros Hg s. apply Hg. Qed.

Lemma preserves_read {B} (g : State → B) : preserves f (read g).
Proof. by intros s. Qed.

Lemma preserves_prop (v : JSON) (k : string) : preserves f (prop v k).
Proof. intros s. unfold prop. by destruct (get v k). Qed.

Lemma preserves_when (b : bool) (c : M unit) :
  preserves f c → preserves f (when b c).
Proof. intros Hc. destruct b; [done|]. apply preserves_ret. Qed.

(** A continuation that preserves [f] leaves [f] as the first part of
    the computation set it. *)
Lemma final_bind_frame {B C} (c : M B) (k : B → M C) (s : State) :
  (∀ b, preserves f (k b)) → f (final (bind c k s)) = f (final (c s)).
Proof.
  intros Hk. rewrite final_bind. destruct (c s) as [b s'|s']; cbn; [|done].
  apply Hk.
Qed.

End Frame.

(** The total steps of a handler, run. *)

Lemma bind_modify {B} (g : State → State) (k : unit → M B) (s : State) :
  bind (modify g) k s = k tt (g s).
Proof. reflexivity. Qed.

Lemma bind_read {A B} (g : State → A) (k : A → M B) (s : State) :
  bind (read g) k s = k (g s) s.
Proof. reflexivity. Qed.

Lemma bind_when_modify {B} (b : bool) (g : State → State) (k : unit → M B)
    (s : State) :
  bind (when b (modify g)) k s = k tt (if b then g s else s).
Proof. by destruct b. Qed.

Lemma when_when (b1 b2 : bool) (c : M unit) :
  when b1 (when b2 c) = when (b1 && b2) c.
Proof. by destruct b1, b2. Qed.

Lemma bind_prop_truthy {B} (v : JSON) (key : string) (k : JSON → M B)
    (s : State) :
  truthy v = true → bind (prop v key) k s = k (get_opt v key) s.
Proof. intros Hv. unfold bind, prop. by rewrite (truthy_get v key Hv). Qed.

Lemma bind_prop_obj {B} (m : gmap string JSON) (key : string)
    (k : JSON → M B) (s : State) :
  bind (prop (JObj m) key) k s = k (default JUndefined (m !! key)) s.
Proof. reflexivity. Qed.

Lemma bind_assoc {A B C} (c : M A) (k1 : A → M B) (k2 : B → M C) (s : State) :
  bind (bind c k1) k2 s = bind c (λ a, bind (k1 a) k2) s.
Proof. unfold bind. by destruct (c s). Qed.

Ltac frame_step :=
  match goal with
  | |- preserves _ (bind _ _) => apply preserves_bind; [|intros ?]
  | |- preserves _ (ret _) => apply preserves_ret
  | |- preserves _ (modify _) => apply preserves_modify; intros ?; reflexivity
  | |- preserves _ (prop _ _) => apply preserves_prop
  | |- preserves _ (read _) => apply preserves_read
  | |- preserves _ (when (_ && false) _) => rewrite andb_false_r
  | |- preserves _ (when false _) => exact (preserves_ret _ tt)
  | |- preserves _ (when _ _) => apply preserves_when
  | |- preserves _ (if ?b then _ else _) => destruct b
  | |- preserves _ tick => intros ?; reflexivity
  end.

Ltac event_fields :=
  cbn [status agent payload error timestamp is_failed is_success orb andb].

(** Solves [preserves f c] for a handler [c] none of whose updates
    touches what [f] reads. *)
Ltac frame :=
  unfold onEvent, onResult, extractImprovedFiles, extractFinalFiles, onError,
    runEventDrivenPipeline, setRealtimeData, addLog, emit;
  event_fields; cbv zeta; repeat frame_step.

Ltac branch :=
  match goal with
  | |- context [match get ?v ?k with _ => _ end] => destruct (get v k) eqn:?
  | |- context [if truthy ?v then _ else _] => destruct (truthy v) eqn:?
  | |- context [if js_gt0 ?r ?v then _ else _] => destruct (js_gt0 r v) eqn:?
  | |- context [if (0 <=? ?i) then _ else _] => destruct (0 <=? i) eqn:?
  | |- context [if ?b then _ else _] => destruct b eqn:?
  end.

Ltac unfold_run :=
  unfold setRealtimeData, addLog, emit, tick, when, prop, read, modify, bind, ret.

Section EventCallback.

Variable rt : Runtime.

Lemma bind_addLog {B} (line : string) (k : unit → M B) (s : State) :
  bind (addLog rt line) k s = k tt (logged rt line s).
Proof. reflexivity. Qed.

Lemma bind_emit {B} (e : Effect) (k : unit → M B) (s : State) :
  bind (emit e) k s = k tt (set_effects (effects s ++ [e]) s).
Proof. reflexivity. Qed.

Lemma bind_setRealtimeData {B} (f : RealtimeData → RealtimeData)
    (k : unit → M B) (s : State) :
  bind (setRealtimeData f) k s
  = k tt (set_realtimeData (f (realtimeData s)) s).
Proof. reflexivity. Qed.

Lemma onEvent_cursor (e : AgentEvent) (s : State) :
  currentStep (final (onEvent rt e s))
  = if (is_success (status e) || is_failed (status e))
       && (0 <=? indexOf stepOrder (agent e))
    then indexOf stepOrder (agent e) + 1
    else currentStep s.
Proof.
  unfold onEvent. rewrite final_bind. cbn [modify].
  rewrite final_bind_frame by (intros; frame).
  by destruct (is_success (status e) || is_failed (status e)),
       (0 <=? indexOf stepOrder (agent e)).
Qed.

Lemma onEvent_statuses (e : AgentEvent) (s : State) :
  stepStatuses (final (onEvent rt e s))
  = <[agent e := statusOf (status e)]> (stepStatuses s).
Proof.
  unfold onEvent. rewrite final_bind. cbn [modify].
  match goal with
  | |- stepStatuses (final (?c ?s0)) = _ =>
      assert (preserves stepStatuses c) as Hp by frame; by rewrite Hp
  end.
Qed.

(** An event that is not a failure leaves the failure marker and the
    running flag as they are. *)
Lemma onEvent_failedAgent (e : AgentEvent) :
  is_failed (status e) = false → preserves failedAgent (onEvent rt e).
Proof. intros Hf. unfold onEvent. rewrite Hf. frame. Qed.

Lemma onEvent_isRunning (e : AgentEvent) :
  is_failed (status e) = false → preserves isRunning (onEvent rt e).
Proof. intros Hf. unfold onEvent. rewrite Hf. frame. Qed.


End EventCallback.

(** Runs the next total step of a handler. *)
Ltac step :=
  first
    [ rewrite bind_assoc | rewrite bind_modify | rewrite bind_read
    | rewrite bind_addLog | rewrite bind_emit | rewrite bind_setRealtimeData
    | rewrite bind_prop_obj | progress cbv zeta ].

Ltac steps := repeat step.

Section EventClaims.

Variable rt : Runtime.

Lemma onEvent_failed
    (s : State) (a ts : string) (p : JSON) (err : option string) :
  let r := onEvent rt (mkEvent a Failed ts p err) s in
  threw r = false
  ∧ failedAgent (final r) = Some a
  ∧ isRunning (final r) = false
  ∧ improvedFiles (final r) = improvedFiles s
  ∧ improvedCode (final r) = improvedCode s
  ∧ realtimeData (final r) = realtimeData s.
Proof.
  cbv zeta. unfold onEvent. event_fields. cbv zeta.
  rewrite bind_modify, when_when, bind_when_modify, bind_addLog.
  rewrite !bind_modify. cbn. by destruct (0 <=? _).
Qed.


(** C10. An event whose agent is not one of the seven names of
    [stepOrder] leaves the step cursor where it was ([indexOf] is
    negative), and still writes the entry of that agent in the status
    table. *)
Theorem unknown_agent_keeps_cursor (s : State) (e : AgentEvent) :
  agent e ∉ stepOrder →
  currentStep (final (onEvent rt e s)) = currentStep s
  ∧ stepStatuses (final (onEvent rt e s)) !! agent e
    = Some (statusOf (status e)).
Proof.
  intros Hu. rewrite onEvent_cursor, onEvent_statuses.
  rewrite (indexOf_notin _ _ Hu), andb_false_r. split; [done|].
  apply lookup_insert_eq.
Qed.

Lemma extractImprovedFiles_overview (b : bool) (p : JSON) :
  preserves (λ s, overview (realtimeData s))
    (when b (extractImprovedFiles rt p)).
Proof. frame. Qed.

Lemma onEvent_overview (e : AgentEvent) (s : State) :
  is_failed (status e) = false →
  threw (onEvent rt e s) = false →
  overview (realtimeData (final (onEvent rt e s)))
  = folded_overview (payload e) s.
Proof.
  intros Hf. unfold onEvent, folded_overview. rewrite Hf. cbv zeta.
  rewrite bind_modify, when_when, bind_when_modify, bind_addLog.
  match goal with |- context [logged rt ?l ?s0] => set (s3 := logged rt l s0) end.
  assert (overview (realtimeData s3) = overview (realtimeData s)) as <-.
  { subst s3. by destruct (_ && _). }
  generalize s3; clear s3; intros s3.
  destruct (truthy (payload e)) eqn:Hp; cbn [when andb]; [|done].
  rewrite final_bind, threw_bind.
  pose proof (extractImprovedFiles_overview
                (bool_decide (agent e = "ml_improvement_agent")
                 && is_success (status e)) (payload e) s3) as Hfr.
  match goal with
  | |- context [when ?b ?c s3] => destruct (when b c s3) as [[] s4|s4]
  end; [|done].
  cbn in Hfr. rewrite <- Hfr. intros _. clear Hfr s3.
  rewrite !bind_prop_truthy by done.
  by destruct (truthy (get_opt (payload e) "baseline_metrics")
               || truthy (get_opt (payload e) "improved_metrics")).
Qed.

(** Outside the extraction of improved files no property of [undefined]
    or [null] is read. *)
Lemma onEvent_no_throw (e : AgentEvent) (s : State) :
  bool_decide (agent e = "ml_improvement_agent") && is_success (status e)
  = false →
  threw (onEvent rt e s) = false.
Proof.
  intros Hml. unfold onEvent. rewrite Hml. cbv zeta.
  rewrite bind_modify, when_when, bind_when_modify, bind_addLog.
  destruct (is_failed (status e)).
  - by rewrite bind_modify, bind_modify.
  - destruct (truthy (payload e)) eqn:Hp; cbn [when]; [|done].
    unfold ret at 1. unfold bind at 1.
    rewrite !bind_prop_truthy by done.
    by destruct (truthy (get_opt (payload e) "baseline_metrics")
                 || truthy (get_opt (payload e) "improved_metrics")).
Qed.




End EventClaims.

Section LegacyFormat.

Variable rt : Runtime.



End LegacyFormat.

(** ** The terminal result *)

Lemma get_total (v : JSON) :
  (∀ k, get v k = None) ∨ (∀ k, get v k = Some (get_opt v k)).
Proof. unfold get_opt. destruct v; by (left + right). Qed.

Lemma truthy_get_opt (v : JSON) (k : string) :
  truthy (get_opt v k) = true → ∀ k', get v k' = Some (get_opt v k').
Proof.
  intros Ht. destruct (get_total v) as [Hn|Hs]; [|done].
  unfold get_opt in Ht. by rewrite Hn in Ht.
Qed.

Lemma bind_prop_some {B} (v : JSON) (key : string) (k : JSON → M B)
    (s : State) :
  (∀ k', get v k' = Some (get_opt v k')) →
  bind (prop v key) k s = k (get_opt v key) s.
Proof. intros Hv. unfold bind, prop. by rewrite Hv. Qed.

Section ResultCallback.

Variable rt : Runtime.

Lemma final_realtime_idemp (result : JSON) (d : RealtimeData) :
  final_realtime result (final_realtime result d) = final_realtime result d.
Proof.
  unfold final_realtime, final_field; cbn.
  by destruct (truthy (get_opt result "overview")),
       (truthy (get_opt result "pipeline_json")),
       (truthy (get_opt result "improved_code")).
Qed.

Lemma onResult_nullish (result : JSON) (s : State) :
  (∀ k, get result k = None) →
  onResult rt result s = Throw (before_files result s).
Proof.
  intros Hn. unfold onResult. rewrite !bind_modify.
  unfold bind at 1. unfold prop. rewrite Hn.
  unfold before_files, final_realtime, final_field, get_opt.
  rewrite !Hn. cbn. by destruct s as [? ? ? ? ? ? ? ? ? [] ? ? ?].
Qed.

Lemma onResult_object (result : JSON) (s : State) :
  (∀ k, get result k = Some (get_opt result k)) →
  onResult rt result s
  = (extractFinalFiles rt result ;;
     addLog rt "🎉 Pipeline completed successfully!" ;;
     emit (Toast "Pipeline Completed"
             "All agents have finished processing your experiment." false))
      (before_files result s).
Proof.
  intros Hs. unfold onResult. rewrite !bind_modify.
  unfold setRealtimeData.
  rewrite (bind_prop_some _ _ _ _ Hs), bind_when_modify.
  rewrite (bind_prop_some _ _ _ _ Hs), bind_when_modify.
  rewrite (bind_prop_some _ _ _ _ Hs), bind_when_modify.
  f_equal. unfold before_files, final_realtime, final_field.
  destruct s as [? ? ? ? ? ? ? ? ? [] ? ? ?].
  by destruct (truthy (get_opt result "overview")),
       (truthy (get_opt result "pipeline_json")),
       (truthy (get_opt result "improved_code")).
Qed.

(** What the result callback does to a part of the state that the
    extraction of the files and the closing log and toast leave alone. *)
Lemma onResult_frame {A} (f : State → A) (result : JSON) (s : State) :
  (∀ res, preserves f (extractFinalFiles rt res)) →
  (∀ s l, f (set_logs l s) = f s) →
  (∀ s n, f (set_ticks n s) = f s) →
  (∀ s l, f (set_effects l s) = f s) →
  f (final (onResult rt result s)) = f (before_files result s).
Proof.
  intros Hx Hl Ht He. destruct (get_total result) as [Hn|Hs].
  - by rewrite onResult_nullish.
  - rewrite onResult_object by done.
    assert (preserves f
              (extractFinalFiles rt result ;;
               addLog rt "🎉 Pipeline completed successfully!" ;;
               emit (Toast "Pipeline Completed"
                       "All agents have finished processing your experiment."
                       false))) as Hp; [|apply Hp].
    apply preserves_bind; [apply Hx|intros _].
    intros s0. cbn. by rewrite He, Hl, Ht.
Qed.

Ltac by_frame f :=
  intros; rewrite (onResult_frame f) by (done || intros; frame); done.

Lemma onResult_pipelineResult (result : JSON) (s : State) :
  pipelineResult (final (onResult rt result s)) = result.
Proof. by_frame pipelineResult. Qed.

Lemma onResult_currentStep (result : JSON) (s : State) :
  currentStep (final (onResult rt result s)) = 7.
Proof. by_frame currentStep. Qed.

Lemma onResult_isRunning (result : JSON) (s : State) :
  isRunning (final (onResult rt result s)) = false.
Proof. by_frame isRunning. Qed.

Lemma onResult_failedAgent (result : JSON) (s : State) :
  failedAgent (final (onResult rt result s)) = None.
Proof. by_frame failedAgent. Qed.

Lemma onResult_stepStatuses (result : JSON) (s : State) :
  stepStatuses (final (onResult rt result s)) = stepStatuses s.
Proof. by_frame stepStatuses. Qed.

Lemma onResult_realtimeData (result : JSON) (s : State) :
  realtimeData (final (onResult rt result s))
  = final_realtime result (realtimeData s).
Proof. by_frame realtimeData. Qed.

Lemma onResult_files (result : JSON) (s : State) :
  (∀ k, get result k = Some (get_opt result k)) →
  (improvedFiles (final (onResult rt result s)),
   improvedCode (final (onResult rt result s)))
  = (improvedFiles (final (extractFinalFiles rt result (before_files result s))),
     improvedCode (final (extractFinalFiles rt result (before_files result s)))).
Proof.
  intros Hs. rewrite onResult_object by done.
  by rewrite (final_bind_frame (λ s, (improvedFiles s, improvedCode s)))
    by (intros; frame).
Qed.

(** The test [result.improved_code && result.improved_code.length > 0]. *)
Lemma bind_nonempty {B} (files : JSON) (k : bool → M B) (s : State) :
  bind (if truthy files
        then len <- prop files "length" ;; ret (js_gt0 rt len)
        else ret false) k s
  = k (truthy files && js_gt0 rt (get_opt files "length")) s.
Proof.
  destruct (truthy files) eqn:Ht; [|done].
  by rewrite bind_assoc, bind_prop_truthy.
Qed.

(** The improved files and code after the extraction are either those
    the result dictates or those already there, whatever the state. *)
Lemma extractFinalFiles_shape (result : JSON) :
  ∃ o1 o2 : option JSON, ∀ s,
    improvedFiles (final (extractFinalFiles rt result s))
    = default (improvedFiles s) o1
    ∧ improvedCode (final (extractFinalFiles rt result s))
      = default (improvedCode s) o2.
Proof.
  unfold extractFinalFiles.
  destruct (get_total result) as [Hn|Hs].
  { exists None, None. intros s. unfold bind at 1. unfold prop.
    by rewrite Hn. }
  set (files := get_opt result "improved_code").
  set (ml := get_opt result "ml_improvement").
  destruct (truthy files && js_gt0 rt (get_opt files "length")) eqn:Htop;
    [|destruct (truthy (get_opt ml "improved_files")) eqn:Hf].
  - assert (∃ o2 : option JSON, ∀ s,
              let s' := final ((first <- prop files "0" ;;
                                c <- prop first "improved_code" ;;
                                modify (set_improvedCode c) ;;
                                len <- prop files "length" ;;
                                addLog rt ("📝 Final improved code: "
                                           +:+ render rt len
                                           +:+ " files received!")) s) in
              improvedFiles s' = improvedFiles s
              ∧ improvedCode s' = default (improvedCode s) o2)
      as (o2 & Ho).
    { unfold_run. cbn.
      repeat (branch; cbn); by (exists None + eexists (Some _)). }
    exists (Some files), o2. intros s.
    rewrite (bind_prop_some _ _ _ _ Hs), bind_nonempty. fold files.
    rewrite Htop, bind_modify. exact (Ho (set_improvedFiles files s)).
  - assert (∃ o2 : option JSON, ∀ s,
              let s' := final ((len <- prop (get_opt ml "improved_files")
                                         "length" ;;
                                when (js_gt0 rt len)
                                  (first <- prop (get_opt ml "improved_files") "0" ;;
                                   c <- prop first "improved_code" ;;
                                   modify (set_improvedCode c)) ;;
                                addLog rt ("📝 Improved files from ML agent: "
                                           +:+ render rt len +:+ " files!")) s) in
              improvedFiles s' = improvedFiles s
              ∧ improvedCode s' = default (improvedCode s) o2)
      as (o2 & Ho).
    { unfold_run. cbn.
      repeat (branch; cbn); by (exists None + eexists (Some _)). }
    exists (Some (get_opt ml "improved_files")), o2. intros s.
    rewrite (bind_prop_some _ _ _ _ Hs), bind_nonempty. fold files.
    rewrite Htop, (bind_prop_some _ _ _ _ Hs). fold ml.
    rewrite Hf, bind_modify.
    exact (Ho (set_improvedFiles (get_opt ml "improved_files") s)).
  - assert (∃ o1 o2 : option JSON, ∀ s,
              let s' := final (when (truthy (get_opt ml "improved_code"))
                                 (run_id <- prop result "run_id" ;;
                                  original <- prop ml "original_code" ;;
                                  let legacy :=
                                    legacyFile (JS.or run_id (JStr "unknown"))
                                      (JS.or original
                                         (JStr "# Original code not available"))
                                      (get_opt ml "improved_code") in
                                  modify (set_improvedFiles (JArr [legacy])) ;;
                                  modify (set_improvedCode
                                            (get_opt ml "improved_code")) ;;
                                  addLog rt
                                    "📝 Improved code from ML agent received!") s) in
              improvedFiles s' = default (improvedFiles s) o1
              ∧ improvedCode s' = default (improvedCode s) o2)
      as (o1 & o2 & Ho).
    { unfold_run. cbn.
      repeat (branch; cbn);
        first [ by exists None, None | by eexists (Some _), (Some _) ]. }
    exists o1, o2. intros s.
    rewrite (bind_prop_some _ _ _ _ Hs), bind_nonempty. fold files.
    rewrite Htop, (bind_prop_some _ _ _ _ Hs). fold ml.
    rewrite Hf. exact (Ho s).
Qed.

Lemma extractFinalFiles_top (result : JSON) (s : State) :
  let files := get_opt result "improved_code" in
  truthy files = true →
  js_gt0 rt (get_opt files "length") = true →
  improvedFiles (final (extractFinalFiles rt result s)) = files.
Proof.
  cbv zeta. intros Ht Hlen. unfold extractFinalFiles.
  rewrite (bind_prop_some _ _ _ _ (truthy_get_opt _ _ Ht)).
  rewrite bind_nonempty, Ht, Hlen. cbn [andb]. rewrite bind_modify.
  match goal with
  | |- improvedFiles (final (?c ?s0)) = _ =>
      assert (preserves improvedFiles c) as -> by frame
  end.
  done.
Qed.

Lemma extractFinalFiles_kept (result : JSON) (s : State) :
  let files := get_opt result "improved_code" in
  let ml := get_opt result "ml_improvement" in
  truthy files && js_gt0 rt (get_opt files "length") = false →
  truthy (get_opt ml "improved_files") = false →
  truthy (get_opt ml "improved_code") = false →
  final (extractFinalFiles rt result s) = s.
Proof.
  cbv zeta. intros Htop Hf Hc. unfold extractFinalFiles.
  destruct (get_total result) as [Hn|Hs].
  { unfold bind at 1. unfold prop. by rewrite Hn. }
  rewrite (bind_prop_some _ _ _ _ Hs), bind_nonempty, Htop.
  by rewrite (bind_prop_some _ _ _ _ Hs), Hf, Hc.
Qed.

End ResultCallback.

Section ResultClaims.

Variable rt : Runtime.

(** C6 (as the code has it). The terminal result is stored whole in
    [pipelineResult]; the cursor goes to the end of the step order, the
    running flag and the failure marker are cleared.  Of the data folded
    from events, each of the keys [overview], [pipeline_json] and
    [improved_code] of [realtimeData] takes the value of the result when
    that value is truthy and keeps the folded value otherwise;
    [improvedFiles] takes the top-level [improved_code] of the result when
    that is truthy and of positive length; and when the result carries no
    such array and no improved files or code under [ml_improvement], the
    folded [improvedFiles] and [improvedCode] stay. *)
Theorem terminal_result_effect (s : State) (result : JSON) :
  let s' := final (onResult rt result s) in
  let files := get_opt result "improved_code" in
  let ml := get_opt result "ml_improvement" in
  pipelineResult s' = result
  ∧ currentStep s' = 7
  ∧ isRunning s' = false
  ∧ failedAgent s' = None
  ∧ stepStatuses s' = stepStatuses s
  ∧ overview (realtimeData s')
    = final_field result "overview" (overview (realtimeData s))
  ∧ pipeline_json (realtimeData s')
    = final_field result "pipeline_json" (pipeline_json (realtimeData s))
  ∧ improved_code (realtimeData s')
    = final_field result "improved_code" (improved_code (realtimeData s))
  ∧ rt_logs (realtimeData s') = rt_logs (realtimeData s)
  ∧ (truthy files = true → js_gt0 rt (get_opt files "length") = true →
     improvedFiles s' = files)
  ∧ (truthy files && js_gt0 rt (get_opt files "length") = false →
     truthy (get_opt ml "improved_files") = false →
     truthy (get_opt ml "improved_code") = false →
     improvedFiles s' = improvedFiles s ∧ improvedCode s' = improvedCode s).
Proof.
  cbv zeta.
  rewrite onResult_pipelineResult, onResult_currentStep, onResult_isRunning,
    onResult_failedAgent, onResult_stepStatuses, onResult_realtimeData.
  do 9 (split; [done|]).
  split.
  - intros Ht Hlen.
    pose proof (onResult_files rt result s (truthy_get_opt _ _ Ht)) as [= -> _].
    by apply extractFinalFiles_top.
  - intros Htop Hf Hc. destruct (get_total result) as [Hn|Hs].
    + by rewrite onResult_nullish.
    + pose proof (onResult_files rt result s Hs) as [= -> ->].
      by rewrite extractFinalFiles_kept.
Qed.

Lemma onResult_shape (result : JSON) :
  ∃ o1 o2 : option JSON, ∀ s,
    improvedFiles (final (onResult rt result s))
    = default (improvedFiles s) o1
    ∧ improvedCode (final (onResult rt result s))
      = default (improvedCode s) o2.
Proof.
  destruct (get_total result) as [Hn|Hs].
  - exists None, None. intros s. by rewrite onResult_nullish.
  - destruct (extractFinalFiles_shape rt result) as (o1 & o2 & Ho).
    exists o1, o2. intros s.
    pose proof (onResult_files rt result s Hs) as [= -> ->].
    exact (Ho (before_files result s)).
Qed.

(** C7. Replaying the terminal result changes nothing of the composite
    state: after a second application the overview, pipeline JSON and
    improved code of [realtimeData], the improved files, the improved
    code and the step cursor (and the stored result, the running flag,
    the failure marker and the status table) are those left by the
    first. *)
Theorem terminal_result_idempotent (s : State) (result : JSON) :
  let s1 := final (onResult rt result s) in
  let s2 := final (onResult rt result s1) in
  realtimeData s2 = realtimeData s1
  ∧ improvedFiles s2 = improvedFiles s1
  ∧ improvedCode s2 = improvedCode s1
  ∧ currentStep s2 = currentStep s1
  ∧ pipelineResult s2 = pipelineResult s1
  ∧ isRunning s2 = isRunning s1
  ∧ failedAgent s2 = failedAgent s1
  ∧ stepStatuses s2 = stepStatuses s1.
Proof.
  cbv zeta. destruct (onResult_shape result) as (o1 & o2 & Ho).
  rewrite !onResult_pipelineResult, !onResult_currentStep,
    !onResult_isRunning, !onResult_failedAgent, !onResult_stepStatuses,
    !onResult_realtimeData, final_realtime_idemp.
  rewrite !(proj1 (Ho _)), !(proj2 (Ho _)).
  by destruct o1, o2.
Qed.


End ResultClaims.

(** ** Retry and skip *)

Section Recovery.

Variable rt : Runtime.

Lemma no_failedAgent_some (a : string) :
  a ≠ "" → no_failedAgent (Some a) = false.
Proof. intros Ha. cbn. by rewrite bool_decide_eq_false_2. Qed.

Lemma handleRetryAgent_run (s : State) (a : string) :
  failedAgent s = Some a → a ≠ "" → truthy (pipelineData s) = true →
  handleRetryAgent rt s = handlePlay rt (retrying rt a s).
Proof.
  intros Hfa Ha Hpd. unfold handleRetryAgent.
  rewrite !bind_read, Hfa, Hpd, (no_failedAgent_some a Ha). cbn [orb negb].
  by rewrite bind_addLog, bind_modify.
Qed.

Lemma handlePlay_resume (s : State) :
  truthy (pipelineData s) = true → currentStep s ≠ 0 →
  handlePlay rt s = Ret tt (set_isPaused false (set_isRunning true s)).
Proof.
  intros Hpd Hstep. unfold handlePlay.
  rewrite bind_read, Hpd. cbn [negb]. rewrite bind_read.
  by rewrite (proj2 (Z.eqb_neq _ _) Hstep).
Qed.

Lemma handlePlay_start (s : State) :
  truthy (pipelineData s) = true → currentStep s = 0 →
  handlePlay rt s
  = runEventDrivenPipeline rt
      (sampleExperiment (dateNow rt (ticks s)) (isoNow rt (S (ticks s))))
      (set_ticks (S (S (ticks s))) s).
Proof.
  intros Hpd Hstep. unfold handlePlay.
  rewrite bind_read, Hpd. cbn [negb]. rewrite bind_read, Hstep.
  reflexivity.
Qed.


(** C3 (as the code has it). On a halted run both actions clear the
    local failure marker and set the running flag, and neither asks the
    Coordinator to retry or to skip: skipping makes no call, moves the
    cursor one step on and leaves the status table (the [error] entry
    included) as it is; retrying, where a pipeline is parsed, makes no
    call either or opens a new run. *)
Theorem retry_and_skip_stay_local (s : State) (a : string) :
  failedAgent s = Some a → a ≠ "" →
  (let r := handleSkipAgent rt s in
   threw r = false
   ∧ failedAgent (final r) = None
   ∧ isRunning (final r) = true
   ∧ currentStep (final r) = currentStep s + 1
   ∧ effects (final r) = effects s
   ∧ stepStatuses (final r) = stepStatuses s)
  ∧ (truthy (pipelineData s) = true →
     let r := handleRetryAgent rt s in
     threw r = false
     ∧ failedAgent (final r) = None
     ∧ isRunning (final r) = true
     ∧ (effects (final r) = effects s
        ∨ ∃ x, effects (final r) = effects s ++ [RunPipelineEventDriven x])).
Proof.
  intros Hfa Ha. split.
  - cbv zeta. unfold handleSkipAgent.
    rewrite bind_read, Hfa, (no_failedAgent_some a Ha).
    by rewrite bind_addLog, !bind_modify.
  - intros Hpd. cbv zeta. rewrite (handleRetryAgent_run s a) by done.
    destruct (decide (currentStep s = 0)) as [Hz|Hnz].
    + rewrite handlePlay_start by done. repeat split; eauto.
    + rewrite handlePlay_resume by done. repeat split; eauto.
Qed.

End Recovery.

(** ** Scenario A *)

Section ScenarioA.

Variable rt : Runtime.

Lemma deliver_cons (e : AgentEvent) (rest : list AgentEvent) (s : State) :
  threw (onEvent rt e s) = false →
  deliver rt (e :: rest) s = deliver rt rest (final (onEvent rt e s)).
Proof.
  intros Ht. cbn [deliver]. unfold bind.
  by destruct (onEvent rt e s) as [[] s'|s'].
Qed.

Lemma scenarioA_cursor (s : State) :
  threw (deliver rt scenarioA_progress s) = false
  ∧ currentStep (final (deliver rt scenarioA_progress s)) = 4.
Proof.
  unfold scenarioA_progress.
  do 10 (rewrite deliver_cons by (by apply onEvent_no_throw)).
  cbn [deliver ret threw final]. split; [done|].
  by rewrite !onEvent_cursor.
Qed.

(** C1 (where the code departs from it). In Scenario A the cursor stands
    at 4, the index of [ml_improvement_agent], when the Improve stage
    fails; handling the [failed] event records the failed agent and moves
    the cursor to 5: a failure is counted like a completion, the cursor
    is not frozen. *)
Theorem scenarioA_failed_event_moves_cursor (s : State) :
  let s1 := final (deliver rt scenarioA_progress s) in
  let s2 := final (onEvent rt improve_failed s1) in
  currentStep s1 = 4
  ∧ currentStep s2 = 5
  ∧ failedAgent s2 = Some "ml_improvement_agent".
Proof.
  cbv zeta. split; [apply scenarioA_cursor|].
  split; [by rewrite onEvent_cursor|].
  apply onEvent_failed.
Qed.

End ScenarioA.

Section LegacyClaim.

Variable rt : Runtime.


End LegacyClaim.

(** * The scenarios, run *)

Example halted_state :
  currentStep halted = 5
  ∧ failedAgent halted = Some "ml_improvement_agent"
  ∧ isRunning halted = false
  ∧ stepStatuses halted !! "ml_improvement_agent" = Some error_
  ∧ truthy (pipelineData halted) = true
  ∧ effects halted
    = [RunPipelineEventDriven
         (sampleExperiment "1735732800000" "2025-01-01T12:00:00.000Z")].
Proof. vm_compute. by repeat split. Qed.


(** C3, where the claim fails: on the run halted by Scenario A, neither
    skipping nor retrying adds a call to the one that opened the run, so
    no retry or skip reaches the Coordinator; after the skip the agent's
    status is still [error]. *)
Lemma halted_actions_call_nothing :
  effects halted
  = [RunPipelineEventDriven
       (sampleExperiment "1735732800000" "2025-01-01T12:00:00.000Z")]
  ∧ effects (final (handleSkipAgent demo halted)) = effects halted
  ∧ effects (final (handleRetryAgent demo halted)) = effects halted
  ∧ stepStatuses (final (handleSkipAgent demo halted)) !! "ml_improvement_agent"
    = Some error_.
Proof. vm_compute. by repeat split. Qed.



(** C6, where the claim fails: the Improve stage reported one file, and the
    terminal result carries an empty [improved_code] array.  The key of
    [realtimeData] takes the empty array, but [improvedFiles] and
    [improvedCode] keep what was folded from the event. *)
Lemma empty_final_files_do_not_win :
  let s := final (onEvent demo
                    (at_ "ml_improvement_agent" Success
                       (obj [("improved_files", JArr [fileA])])) started) in
  let r := onResult demo (obj [("run_id", JStr "r1"); ("improved_code", JArr [])]) s in
  improvedFiles s = JArr [fileA]
  ∧ threw r = false
  ∧ improved_code (realtimeData (final r)) = Some (JArr [])
  ∧ improvedFiles (final r) = JArr [fileA]
  ∧ improvedCode (final r) = JStr "model = build(dropout=0.5)".
Proof. vm_compute. by repeat split. Qed.


(** ** The theorems with premises, at the scenarios *)

(** C10 at Scenario A: a success of [evaluation_agent], a name the step
    order does not have, arrives with the cursor at 4. *)
Lemma unknown_agent_keeps_cursor_at_scenarioA :
  let e := at_ "evaluation_agent" Success JUndefined in
  (agent e ∉ stepOrder)
  ∧ currentStep (final (onEvent demo e improving)) = currentStep improving
  ∧ stepStatuses (final (onEvent demo e improving)) !! "evaluation_agent"
    = Some completed.
Proof.
  cbv zeta.
  assert (agent (at_ "evaluation_agent" Success JUndefined) ∉ stepOrder) as Hu.
  { apply (bool_decide_unpack _). vm_compute. exact I. }
  split; [exact Hu|].
  exact (unknown_agent_keeps_cursor demo improving _ Hu).
Defined.

(** C3 at the run halted by Scenario A. *)
Lemma retry_and_skip_stay_local_at_scenarioA :
  failedAgent halted = Some "ml_improvement_agent"
  ∧ truthy (pipelineData halted) = true
  ∧ (let r := handleSkipAgent demo halted in
     failedAgent (final r) = None
     ∧ isRunning (final r) = true
     ∧ currentStep (final r) = currentStep halted + 1
     ∧ effects (final r) = effects halted)
  ∧ (let r := handleRetryAgent demo halted in
     failedAgent (final r) = None
     ∧ isRunning (final r) = true
     ∧ (effects (final r) = effects halted
        ∨ ∃ x, effects (final r) = effects halted ++ [RunPipelineEventDriven x])).
Proof.
  assert (failedAgent halted = Some "ml_improvement_agent") as Hfa
    by (vm_compute; reflexivity).
  assert (truthy (pipelineData halted) = true) as Hpd
    by (vm_compute; reflexivity).
  assert ("ml_improvement_agent" ≠ "") as Hne by discriminate.
  destruct (retry_and_skip_stay_local demo halted _ Hfa Hne)
    as [(_ & Hs1 & Hs2 & Hs3 & Hs4 & _) Hr].
  destruct (Hr Hpd) as (_ & Hr1 & Hr2 & Hr3).
  split; [exact Hfa|]. split; [exact Hpd|].
  split; [exact (conj Hs1 (conj Hs2 (conj Hs3 Hs4)))|].
  exact (conj Hr1 (conj Hr2 Hr3)).
Defined.



(** * Further properties of the callbacks *)

Lemma indexOf_from_range (l : list string) (x : string) (i : Z) :
  indexOf_from l x i = -1 ∨ i ≤ indexOf_from l x i < i + Z.of_nat (length l).
Proof.
  destruct (decide (x ∈ l)) as [Hin|Hout].
  - right. by apply indexOf_from_in.
  - left. by apply indexOf_from_notin.
Qed.

Lemma indexOf_range (l : list string) (x : string) :
  -1 ≤ indexOf l x < Z.of_nat (length l).
Proof.
  destruct (indexOf_from_range l x 0) as [H|H]; unfold indexOf; lia.
Qed.

Lemma indexOf_from_lookup (l : list string) (x : string) (i : Z) (n : nat) :
  NoDup l → l !! n = Some x → indexOf_from l x i = i + Z.of_nat n.
Proof.
  intros Hnd. revert i n. induction Hnd as [|y l Hy Hnd IH]; intros i n Hn.
  - done.
  - cbn [indexOf_from]. destruct n as [|n]; cbn in Hn.
    + injection Hn as ->. rewrite bool_decide_eq_true_2 by done. lia.
    + rewrite bool_decide_eq_false_2.
      * rewrite (IH (i + 1) n Hn). lia.
      * intros ->. apply Hy. by eapply list_elem_of_lookup_2.
Qed.

Lemma stepOrder_NoDup : NoDup stepOrder.
Proof. apply (bool_decide_unpack _). vm_compute. exact I. Qed.

Lemma indexOf_stepOrder (n : nat) (a : string) :
  stepOrder !! n = Some a → indexOf stepOrder a = Z.of_nat n.
Proof.
  intros Hn. unfold indexOf.
  by rewrite (indexOf_from_lookup _ _ 0 n stepOrder_NoDup Hn).
Qed.

Section Streams.

Variable rt : Runtime.

Lemma final_deliver_cons (e : AgentEvent) (rest : list AgentEvent) (s : State) :
  final (deliver rt (e :: rest) s)
  = match onEvent rt e s with
    | Ret _ s' => final (deliver rt rest s')
    | Throw s' => s'
    end.
Proof. cbn [deliver]. apply final_bind. Qed.

(** An observation that every event leaves alone is left alone by a
    stream of events. *)
Lemma deliver_preserves {A} (f : State → A) (events : list AgentEvent) :
  (∀ e, preserves f (onEvent rt e)) → preserves f (deliver rt events).
Proof.
  intros He. induction events as [|e rest IH]; [done|].
  cbn [deliver]. apply preserves_bind; [apply He|]. intros _. apply IH.
Qed.

(** A property of the state that every event keeps is kept by a stream. *)
Lemma deliver_invariant (P : State → Prop) (events : list AgentEvent) (s : State) :
  (∀ e s0, P s0 → P (final (onEvent rt e s0))) →
  P s → P (final (deliver rt events s)).
Proof.
  intros Hstep. revert s. induction events as [|e rest IH]; intros s Hs; [done|].
  rewrite final_deliver_cons. specialize (Hstep e s Hs).
  destruct (onEvent rt e s) as [[] s'|s']; cbn in Hstep; [by apply IH|done].
Qed.

(** X1. The step cursor stays within the step order under any stream of
    events: from a cursor between 0 and 7, whatever the events are (known
    or unknown agents, in or out of order, well-formed payloads or not),
    the cursor is between 0 and 7 again. *)
Theorem stream_keeps_cursor_in_range (events : list AgentEvent) (s : State) :
  0 ≤ currentStep s ≤ 7 →
  0 ≤ currentStep (final (deliver rt events s)) ≤ 7.
Proof.
  apply (deliver_invariant (λ s0, 0 ≤ currentStep s0 ≤ 7)).
  intros e s0 Hs0. rewrite onEvent_cursor.
  pose proof (indexOf_range stepOrder (agent e)) as Hr.
  change (Z.of_nat (length stepOrder)) with 7 in Hr.
  destruct (_ && _) eqn:Hc; [|done].
  apply andb_true_iff in Hc as [_ Hc]. apply Z.leb_le in Hc. lia.
Qed.

(** X2. The event callback never calls the API client and never raises a
    toast, and it leaves the parsed pipeline, the pause flag and the stored
    result alone: a stream of events changes none of them. *)
Theorem stream_makes_no_call (events : list AgentEvent) (s : State) :
  let s' := final (deliver rt events s) in
  effects s' = effects s
  ∧ pipelineData s' = pipelineData s
  ∧ isPaused s' = isPaused s
  ∧ pipelineResult s' = pipelineResult s.
Proof.
  cbv zeta.
  assert (preserves (λ s0, (effects s0, pipelineData s0, isPaused s0,
                            pipelineResult s0)) (deliver rt events)) as Hp.
  { apply deliver_preserves. intros e. frame. }
  by pose proof (Hp s) as [= -> -> -> ->].
Qed.

End Streams.

Section LogGrowth.

Lemma log_grows_ret {B} (b : B) : log_grows (ret b).
Proof. by intros s. Qed.

Lemma log_grows_bind {B C} (c : M B) (k : B → M C) :
  log_grows c → (∀ b, log_grows (k b)) → log_grows (bind c k).
Proof.
  intros Hc Hk s. rewrite final_bind. specialize (Hc s).
  destruct (c s) as [b s'|s']; cbn in *; [|done].
  etrans; [exact Hc|apply Hk].
Qed.

Lemma log_grows_modify (g : State → State) :
  (∀ s, logs (g s) = logs s) → log_grows (modify g).
Proof. intros Hg s. cbn. by rewrite Hg. Qed.

Lemma log_grows_prop (v : JSON) (k : string) : log_grows (prop v k).
Proof. intros s. unfold prop. by destruct (get v k). Qed.

Lemma log_grows_when (b : bool) (c : M unit) :
  log_grows c → log_grows (when b c).
Proof. intros Hc. destruct b; [done|]. apply log_grows_ret. Qed.

Lemma log_grows_addLog (rt : Runtime) (line : string) :
  log_grows (addLog rt line).
Proof. intros s. cbn. by apply prefix_app_r. Qed.

End LogGrowth.

Ltac log_step :=
  match goal with
  | |- log_grows (bind _ _) => apply log_grows_bind; [|intros ?]
  | |- log_grows (ret _) => apply log_grows_ret
  | |- log_grows (addLog _ _) => apply log_grows_addLog
  | |- log_grows (modify _) => apply log_grows_modify; intros ?; reflexivity
  | |- log_grows (prop _ _) => apply log_grows_prop
  | |- log_grows (when _ _) => apply log_grows_when
  | |- log_grows (if ?b then _ else _) => destruct b
  end.

Ltac log_grows :=
  unfold onEvent, onResult, extractImprovedFiles, extractFinalFiles, onError,
    onStartFailed, setRealtimeData, emit;
  cbv zeta; repeat log_step.

Section StreamTables.

Variable rt : Runtime.




Lemma lastStatus_is_Some (events : list AgentEvent) (a : string)
    (old : option StepStatus) :
  is_Some old → is_Some (lastStatus events a old).
Proof.
  revert old. induction events as [|e rest IH]; intros old Ho; [done|].
  cbn. apply IH. by case_bool_decide.
Qed.

Lemma deliver_statuses (events : list AgentEvent) (s : State) (a : string) :
  threw (deliver rt events s) = false →
  stepStatuses (final (deliver rt events s)) !! a
  = lastStatus events a (stepStatuses s !! a).
Proof.
  revert s. induction events as [|e rest IH]; intros s Ht; [done|].
  rewrite final_deliver_cons. cbn [deliver lastStatus] in *.
  rewrite threw_bind in Ht.
  pose proof (onEvent_statuses rt e s) as Hst.
  destruct (onEvent rt e s) as [[] s'|s']; [|done]. cbn in Hst.
  rewrite (IH s' Ht), Hst, lookup_insert. by case_decide; case_bool_decide.
Qed.

(** X4. The status table records, for every agent, the last event
    delivered for it: after a stream that is handled without an error the
    entry of an agent is the status of the last event that names the agent
    ([completed] for success, [error] for failed, [processing] for started
    and processing), and the entry it had before if no event names it.  No
    stream of events, handled to the end or not, removes an entry. *)
Theorem status_table_follows_last_event
    (events : list AgentEvent) (s : State) (a : string) :
  (threw (deliver rt events s) = false →
   stepStatuses (final (deliver rt events s)) !! a
   = lastStatus events a (stepStatuses s !! a))
  ∧ (is_Some (stepStatuses s !! a) →
     is_Some (stepStatuses (final (deliver rt events s)) !! a)).
Proof.
  split; [apply deliver_statuses|].
  apply (deliver_invariant rt (λ s0, is_Some (stepStatuses s0 !! a))).
  intros e s0 Hs0. rewrite onEvent_statuses, lookup_insert.
  by case_decide.
Qed.

End StreamTables.

Section PayloadFolding.

Variable rt : Runtime.

Lemma spread_spread (o p : JSON) : spread (spread o p) p = spread o p.
Proof.
  unfold spread. cbn [own_props].
  by rewrite (assoc_L (∪)), (idemp_L (∪)).
Qed.

Lemma folded_overview_replay (p : JSON) (s s1 : State) :
  overview (realtimeData s1) = folded_overview p s →
  folded_overview p s1 = folded_overview p s.
Proof.
  intros H1. unfold folded_overview in *. rewrite H1.
  destruct (truthy p && _); [|done].
  cbn [default from_option id]. by rewrite spread_spread.
Qed.

(** X5. Replaying an event is harmless: when an event that is neither a
    failure nor a success of [ml_improvement_agent] is delivered a second
    time, the status table, the step cursor, the failure marker, the
    running flag, the improved files and code and all of [realtimeData]
    (the overview folded from the payload included) are as the first
    delivery left them; only the log grows. *)
Theorem event_replay_is_idempotent (e : AgentEvent) (s : State) :
  is_failed (status e) = false →
  bool_decide (agent e = "ml_improvement_agent") && is_success (status e)
  = false →
  let s1 := final (onEvent rt e s) in
  let s2 := final (onEvent rt e s1) in
  stepStatuses s2 = stepStatuses s1
  ∧ currentStep s2 = currentStep s1
  ∧ failedAgent s2 = failedAgent s1
  ∧ isRunning s2 = isRunning s1
  ∧ improvedFiles s2 = improvedFiles s1
  ∧ improvedCode s2 = improvedCode s1
  ∧ realtimeData s2 = realtimeData s1.
Proof.
  intros Hf Hml. cbv zeta.
  assert (preserves
            (λ s, (improvedFiles s, improvedCode s,
                   improved_code (realtimeData s),
                   pipeline_json (realtimeData s), rt_logs (realtimeData s)))
            (onEvent rt e)) as Hp.
  { unfold onEvent. rewrite Hml, Hf. frame. }
  split; [by rewrite !onEvent_statuses, insert_insert_eq|].
  split.
  { rewrite (onEvent_cursor rt e (final _)), (onEvent_cursor rt e s).
    by destruct ((is_success (status e) || is_failed (status e))
                 && (0 <=? indexOf stepOrder (agent e))). }
  split; [by rewrite (onEvent_failedAgent rt e Hf (final _))|].
  split; [by rewrite (onEvent_isRunning rt e Hf (final _))|].
  pose proof (Hp (final (onEvent rt e s))) as [= Hfiles Hcode Hic Hpj Hlogs].
  do 2 (split; [done|]).
  pose proof (onEvent_overview rt e (final (onEvent rt e s)) Hf
                (onEvent_no_throw rt e _ Hml)) as Hov.
  rewrite (folded_overview_replay _ s) in Hov
    by (apply onEvent_overview; [done|by apply onEvent_no_throw]).
  rewrite <- (onEvent_overview rt e s Hf (onEvent_no_throw rt e _ Hml)) in Hov.
  destruct (realtimeData (final (onEvent rt e (final (onEvent rt e s)))))
    as [o2 j2 l2 c2], (realtimeData (final (onEvent rt e s))) as [o1 j1 l1 c1].
  cbn in *. by subst.
Qed.


End PayloadFolding.

(** ** Improved files in structured form *)





Section StructuredFiles.

Variable rt : Runtime.




End StructuredFiles.

(** ** Runs do not see each other *)

Section RunLocal.

Lemma run_local_ret {B} (b : B) : run_local (ret b).
Proof. by intros s1 s2 H. Qed.

Lemma run_local_bind {B C} (c : M B) (k : B → M C) :
  run_local c → (∀ b, run_local (k b)) → run_local (bind c k).
Proof.
  intros Hc Hk s1 s2 H. specialize (Hc s1 s2 H). unfold bind.
  destruct (c s1) as [b1 s1'|s1'], (c s2) as [b2 s2'|s2']; try done.
  destruct Hc as [-> H']. by apply Hk.
Qed.

Lemma run_local_modify (g : State → State) :
  (∀ s1 s2, run_atoms s1 = run_atoms s2 → run_atoms (g s1) = run_atoms (g s2)) →
  run_local (modify g).
Proof. intros Hg s1 s2 H. cbn. split; [done|]. by apply Hg. Qed.

Lemma run_local_prop (v : JSON) (k : string) : run_local (prop v k).
Proof. intros s1 s2 H. unfold prop. by destruct (get v k). Qed.

Lemma run_local_when (b : bool) (c : M unit) :
  run_local c → run_local (when b c).
Proof. intros Hc. destruct b; [done|]. apply run_local_ret. Qed.

Lemma run_local_addLog (rt : Runtime) (line : string) :
  run_local (addLog rt line).
Proof. intros s1 s2 H. cbn. split; [done|]. exact H. Qed.

End RunLocal.

Ltac atoms_eq :=
  let s1 := fresh "s" in let s2 := fresh "s" in let H := fresh "H" in
  intros s1 s2 H; unfold run_atoms in *; cbn in *;
  injection H as ? ? ? ? ? ? ? ?; congruence.

Ltac local_step :=
  match goal with
  | |- run_local (bind _ _) => apply run_local_bind; [|intros ?]
  | |- run_local (ret _) => apply run_local_ret
  | |- run_local (addLog _ _) => apply run_local_addLog
  | |- run_local (modify _) => apply run_local_modify; atoms_eq
  | |- run_local (prop _ _) => apply run_local_prop
  | |- run_local (when _ _) => apply run_local_when
  | |- run_local (if ?b then _ else _) => destruct b
  end.

Ltac run_local :=
  unfold onEvent, onResult, extractImprovedFiles, extractFinalFiles, onError,
    setRealtimeData;
  cbv zeta; repeat local_step.

Section Isolation.

Variable rt : Runtime.

Lemma onEvent_run_local (e : AgentEvent) : run_local (onEvent rt e).
Proof. run_local. Qed.

Lemma deliver_run_local (events : list AgentEvent) :
  run_local (deliver rt events).
Proof.
  induction events as [|e rest IH]; [apply run_local_ret|].
  cbn [deliver]. apply run_local_bind; [apply onEvent_run_local|].
  intros _. apply IH.
Qed.

Lemma run_local_final {B} (c : M B) (s1 s2 : State) :
  run_local c → run_atoms s1 = run_atoms s2 →
  threw (c s1) = threw (c s2)
  ∧ run_atoms (final (c s1)) = run_atoms (final (c s2)).
Proof.
  intros Hc H. specialize (Hc s1 s2 H).
  destruct (c s1) as [b1 s1'|s1'], (c s2) as [b2 s2'|s2']; try done.
  by destruct Hc.
Qed.

(** X9. A run sees nothing of what came before it.  Opening a run resets
    every atom of the run, so from any two states of the page, whatever
    earlier runs left in them, the same stream of events after the opening
    leads to the same cursor, status table, failure marker, running flag,
    stored result, improved files and code and [realtimeData], and is
    handled to the end in both or raises in both. *)
Theorem runs_are_isolated
    (exp1 exp2 : JSON) (events : list AgentEvent) (s1 s2 : State) :
  let r1 := deliver rt events (final (runEventDrivenPipeline rt exp1 s1)) in
  let r2 := deliver rt events (final (runEventDrivenPipeline rt exp2 s2)) in
  threw r1 = threw r2 ∧ run_atoms (final r1) = run_atoms (final r2).
Proof.
  cbv zeta. apply run_local_final; [apply deliver_run_local|].
  reflexivity.
Qed.

End Isolation.

(** ** The terminal result and the stream error, at the edges *)

Section ResultEdges.

Variable rt : Runtime.

Lemma nullish_result (result : JSON) (s : State) :
  (∀ k, get result k = None) →
  let r := onResult rt result s in
  threw r = true
  ∧ pipelineResult (final r) = result
  ∧ currentStep (final r) = 7
  ∧ isRunning (final r) = false
  ∧ failedAgent (final r) = None
  ∧ realtimeData (final r) = realtimeData s
  ∧ improvedFiles (final r) = improvedFiles s
  ∧ improvedCode (final r) = improvedCode s
  ∧ logs (final r) = logs s
  ∧ effects (final r) = effects s.
Proof.
  intros Hn. cbv zeta. rewrite onResult_nullish by done.
  cbn. unfold final_realtime, final_field, get_opt. rewrite !Hn. cbn.
  by destruct (realtimeData s).
Qed.

(** X10. A terminal result that is [null] (or [undefined]) is recorded and
    ends the run, and then the callback raises a TypeError at
    [result.overview]: the result is stored, the cursor is at 7, the
    running flag and the failure marker are cleared, but the folded data
    stays as it was, nothing is logged and the completion toast is not
    raised. *)
Theorem null_result_raises (undefined : bool) (s : State) :
  let result := if undefined then JUndefined else JNull in
  let r := onResult rt result s in
  threw r = true
  ∧ pipelineResult (final r) = result
  ∧ currentStep (final r) = 7
  ∧ isRunning (final r) = false
  ∧ failedAgent (final r) = None
  ∧ realtimeData (final r) = realtimeData s
  ∧ improvedFiles (final r) = improvedFiles s
  ∧ improvedCode (final r) = improvedCode s
  ∧ logs (final r) = logs s
  ∧ effects (final r) = effects s.
Proof. cbv zeta. apply nullish_result. by destruct undefined. Qed.


End ResultEdges.

(** * The playback handlers and what the page shows *)

Lemma shownStatus_running (s : State) (i : Z) :
  isRunning s = true → isPaused s = false →
  shownStatus s i
  = if i <? currentStep s then completed
    else if currentStep s =? i then processing else pending.
Proof. intros Hr Hp. unfold shownStatus. by rewrite Hr, Hp. Qed.

Lemma shownStatus_stopped (s : State) (i : Z) :
  isRunning s && negb (isPaused s) = false → shownStatus s i = pending.
Proof. intros H. unfold shownStatus. by rewrite H. Qed.

Section Playback.

Variable rt : Runtime.

Lemma handleStep_run (s : State) :
  handleStep s
  = Ret tt (if negb (truthy (pipelineData s)) || (totalSteps - 1 <=? currentStep s)
            then s
            else set_isPaused true
                   (set_isRunning true (set_currentStep (currentStep s + 1) s))).
Proof.
  unfold handleStep. rewrite !bind_read.
  by destruct (negb _ || _).
Qed.

Lemma steps_pressed_cursor (n : nat) (s : State) :
  truthy (pipelineData s) = true → currentStep s ≤ 6 →
  currentStep (final (steps_pressed n s))
  = Z.min 6 (currentStep s + Z.of_nat n)
  ∧ threw (steps_pressed n s) = false.
Proof.
  revert s. induction n as [|n IH]; intros s Hpd Hc.
  - cbn. lia.
  - cbn [steps_pressed]. unfold bind. rewrite handleStep_run, Hpd.
    cbn [negb orb]. unfold totalSteps.
    destruct (7 - 1 <=? currentStep s) eqn:Hlast.
    + apply Z.leb_le in Hlast. destruct (IH s Hpd Hc) as [-> ->]. lia.
    + apply Z.leb_gt in Hlast.
      destruct (IH (set_isPaused true
                      (set_isRunning true
                         (set_currentStep (currentStep s + 1) s))))
        as [-> ->]; [done|cbn; lia|]. cbn. lia.
Qed.

(** X13. The Step button never moves the cursor past the last step: on a
    page with a parsed pipeline and the cursor at most 6, [n] presses leave
    the cursor at the smaller of 6 and the cursor plus [n]; and whenever a
    press moves the cursor it also pauses the page, so that the step list
    shows every step as pending and the first button reads Resume. *)
Theorem step_button_stops_at_last_step (n : nat) (s : State) :
  truthy (pipelineData s) = true → currentStep s ≤ 6 →
  currentStep (final (steps_pressed n s))
  = Z.min 6 (currentStep s + Z.of_nat n)
  ∧ (currentStep s < 6 →
     let s' := final (handleStep s) in
     currentStep s' = currentStep s + 1
     ∧ playButton s' = PlaybackControls.Resume
     ∧ ∀ i, shownStatus s' i = pending).
Proof.
  intros Hpd Hc. split; [by apply steps_pressed_cursor|].
  intros Hlt. cbv zeta. rewrite handleStep_run, Hpd. unfold totalSteps.
  rewrite (proj2 (Z.leb_gt _ _)) by lia. by cbn.
Qed.

(** X14. Pause and Resume are a round trip once a step has completed: on
    a running, unpaused page with a parsed pipeline and the cursor past
    zero, pausing shows every step as pending under a Resume button, and
    pressing that button brings back the flags and leaves the cursor, the
    data of the run and the calls made as they were. *)
Theorem pause_then_resume_restores (s : State) :
  isRunning s = true → isPaused s = false →
  truthy (pipelineData s) = true → currentStep s ≠ 0 →
  let s1 := final (handlePause rt s) in
  let s2 := final (handlePlay rt s1) in
  playButton s1 = PlaybackControls.Resume
  ∧ (∀ i, shownStatus s1 i = pending)
  ∧ run_atoms s2 = run_atoms s
  ∧ isPaused s2 = false
  ∧ effects s2 = effects s
  ∧ (∀ i, shownStatus s2 i = shownStatus s i).
Proof.
  intros Hr Hp Hpd Hc. cbv zeta.
  unfold handlePause. rewrite bind_modify. cbn [addLog].
  set (s1 := final (addLog rt _ _)).
  assert (isRunning s1 = true ∧ isPaused s1 = true
          ∧ currentStep s1 = currentStep s
          ∧ pipelineData s1 = pipelineData s) as (Hr1 & Hp1 & Hc1 & Hpd1)
    by done.
  rewrite handlePlay_resume by (by rewrite ?Hpd1, ?Hc1).
  unfold playButton, shownStatus. rewrite Hr1, Hp1. cbn.
  unfold run_atoms. cbn. rewrite Hr, Hp. by repeat split.
Qed.

(** X15. Pausing before any step has completed is no round trip: with the
    cursor still at zero, pressing the button after a pause opens a second
    run on a fresh sample experiment and resets the data of the run, and
    the pause flag stays set. *)
Theorem resume_at_zero_opens_second_run (s : State) :
  truthy (pipelineData s) = true → currentStep s = 0 →
  let s1 := final (handlePause rt s) in
  let s2 := final (handlePlay rt s1) in
  effects s2
  = effects s
    ++ [RunPipelineEventDriven
          (sampleExperiment (dateNow rt (S (ticks s))) (isoNow rt (S (S (ticks s)))))]
  ∧ currentStep s2 = 0
  ∧ stepStatuses s2 = ∅
  ∧ realtimeData s2 = emptyRealtime
  ∧ improvedFiles s2 = JArr []
  ∧ isRunning s2 = true
  ∧ isPaused s2 = true.
Proof.
  intros Hpd Hc. cbv zeta.
  unfold handlePause. rewrite bind_modify. cbn [addLog].
  set (s1 := final (addLog rt _ _)).
  assert (currentStep s1 = 0 ∧ pipelineData s1 = pipelineData s
          ∧ ticks s1 = S (ticks s) ∧ effects s1 = effects s)
    as (Hc1 & Hpd1 & Ht1 & He1) by (repeat split; try done; exact Hc).
  rewrite handlePlay_start by (by rewrite ?Hpd1).
  subst s1. by cbn.
Qed.

End Playback.

Section PageActions.

Variable rt : Runtime.

Lemma handlePlay_unparsed (s : State) :
  truthy (pipelineData s) = false → handlePlay rt s = Ret tt s.
Proof. intros Hpd. unfold handlePlay. by rewrite bind_read, Hpd. Qed.

(** X16. Restart resets the page without reaching the run: it makes no
    call, puts the cursor at zero, clears the flags, the failure marker and
    [realtimeData], and leaves one line in the log; the status table, the
    stored result and the improved files and code of the last run stay.
    On a page with a parsed pipeline the next press of Play then opens a
    new run. *)
Theorem restart_then_play_opens_a_run (s : State) :
  let s1 := final (handleRestart rt s) in
  let s2 := final (handlePlay rt s1) in
  effects s1 = effects s
  ∧ currentStep s1 = 0
  ∧ isRunning s1 = false ∧ isPaused s1 = false
  ∧ failedAgent s1 = None
  ∧ realtimeData s1 = emptyRealtime
  ∧ length (logs s1) = 1%nat
  ∧ (stepStatuses s1, pipelineResult s1, improvedFiles s1, improvedCode s1)
    = (stepStatuses s, pipelineResult s, improvedFiles s, improvedCode s)
  ∧ (truthy (pipelineData s) = true →
     effects s2
     = effects s
       ++ [RunPipelineEventDriven
             (sampleExperiment (dateNow rt (S (ticks s)))
                (isoNow rt (S (S (ticks s)))))]
     ∧ isRunning s2 = true).
Proof.
  cbv zeta. unfold handleRestart. rewrite !bind_modify. cbn [addLog].
  set (s1 := final (addLog rt _ _)).
  do 8 (split; [done|]). intros Hpd.
  rewrite handlePlay_start by done. by subst s1.
Qed.

(** X17. Parsing prepares a run: it stores the parsed pipeline, empties
    the log down to its own line, puts the cursor at zero and clears the
    flags, so that, when the parser returned an object, the next press of
    Play opens exactly one run; the failure marker and the data of the
    last run are not touched by the parse itself. *)
Theorem parse_then_play_opens_a_run (parsed : JSON) (s : State) :
  let s1 := final (handleParse rt parsed s) in
  let s2 := final (handlePlay rt s1) in
  pipelineData s1 = parsed
  ∧ length (logs s1) = 1%nat
  ∧ currentStep s1 = 0
  ∧ isRunning s1 = false ∧ isPaused s1 = false
  ∧ effects s1 = effects s
  ∧ (failedAgent s1, stepStatuses s1, realtimeData s1, pipelineResult s1,
     improvedFiles s1, improvedCode s1)
    = (failedAgent s, stepStatuses s, realtimeData s, pipelineResult s,
       improvedFiles s, improvedCode s)
  ∧ (truthy parsed = true →
     effects s2
     = effects s
       ++ [RunPipelineEventDriven
             (sampleExperiment (dateNow rt (S (ticks s)))
                (isoNow rt (S (S (ticks s)))))])
  ∧ (truthy parsed = false → s2 = s1).
Proof.
  cbv zeta. unfold handleParse. rewrite !bind_modify. cbn [addLog].
  set (s1 := final (addLog rt _ _)).
  do 7 (split; [done|]). split; intros Hpd.
  - rewrite handlePlay_start by done. by subst s1.
  - by rewrite handlePlay_unparsed.
Qed.

(** X18. After Clear nothing can be played: Clear empties the editor,
    drops the parsed pipeline, the log and the improved code and resets the
    cursor and the flags, and from then on Play, Retry and Step leave the
    page exactly as it is and make no call, whatever the failure marker
    says.  The failure marker, the status table, the stored result,
    [realtimeData] and the improved files are not cleared. *)
Theorem clear_disables_playback (p : Page) :
  let s1 := atoms (handleClear p) in
  code (handleClear p) = ""
  ∧ pipelineData s1 = JNull
  ∧ logs s1 = []
  ∧ improvedCode s1 = JStr ""
  ∧ currentStep s1 = 0
  ∧ isRunning s1 = false ∧ isPaused s1 = false
  ∧ (failedAgent s1, stepStatuses s1, pipelineResult s1, realtimeData s1,
     improvedFiles s1, effects s1)
    = (failedAgent (atoms p), stepStatuses (atoms p),
       pipelineResult (atoms p), realtimeData (atoms p),
       improvedFiles (atoms p), effects (atoms p))
  ∧ handlePlay rt s1 = Ret tt s1
  ∧ handleRetryAgent rt s1 = Ret tt s1
  ∧ handleStep s1 = Ret tt s1.
Proof.
  cbv zeta. do 8 (split; [done|]).
  split; [by apply handlePlay_unparsed|].
  split.
  - unfold handleRetryAgent. rewrite !bind_read.
    change (truthy (pipelineData (atoms (handleClear p)))) with false.
    cbn [negb]. by rewrite orb_true_r.
  - by rewrite handleStep_run.
Qed.


End PageActions.

Section Views.

Variable rt : Runtime.


Lemma stepOrder_bound (n : nat) (a : string) :
  stepOrder !! n = Some a → (n < 7)%nat.
Proof. intros Hn. by apply lookup_lt_Some in Hn. Qed.

Lemma onEvent_isPaused (e : AgentEvent) : preserves isPaused (onEvent rt e).
Proof. frame. Qed.

(** X20. While a run is shown (running, not paused), a success of the
    [n]-th agent of the step order makes the step list show the steps up to
    and including [n] as completed, step [n + 1] as processing and the
    later ones as pending; an event of an agent outside the step order
    changes nothing of what the list shows. *)
Theorem success_moves_the_step_list
    (n : nat) (a ts : string) (p : JSON) (err : option string)
    (e : AgentEvent) (s : State) :
  isRunning s = true → isPaused s = false →
  (stepOrder !! n = Some a →
   ∀ i, shownStatus (final (onEvent rt (mkEvent a Success ts p err) s)) i
        = if i <=? Z.of_nat n then completed
          else if i =? Z.of_nat n + 1 then processing else pending)
  ∧ (agent e ∉ stepOrder → is_failed (status e) = false →
     ∀ i, shownStatus (final (onEvent rt e s)) i = shownStatus s i).
Proof.
  intros Hr Hp. split.
  - intros Hn i. rewrite shownStatus_running.
    + rewrite onEvent_cursor. cbn [status agent is_success orb].
      rewrite (indexOf_stepOrder n a Hn).
      rewrite (proj2 (Z.leb_le 0 (Z.of_nat n))) by lia. cbn [andb].
      destruct (i <=? Z.of_nat n) eqn:H1, (i <? Z.of_nat n + 1) eqn:H2;
        try lia; [done|].
      by rewrite Z.eqb_sym.
    + by rewrite onEvent_isRunning.
    + by rewrite onEvent_isPaused.
  - intros Hu Hf i. unfold shownStatus.
    rewrite onEvent_cursor, (indexOf_notin _ _ Hu), andb_false_r.
    by rewrite (onEvent_isRunning rt e Hf), onEvent_isPaused.
Qed.

End Views.

Section ViewsAfterTheRun.

Variable rt : Runtime.

Lemma onResult_page (result : JSON) (s : State) :
  pipelineData (final (onResult rt result s)) = pipelineData s
  ∧ isPaused (final (onResult rt result s)) = isPaused s.
Proof.
  split.
  - by rewrite (onResult_frame rt pipelineData) by (done || intros; frame).
  - by rewrite (onResult_frame rt isPaused) by (done || intros; frame).
Qed.

(** X21. The terminal result leaves the page stopped, not completed: right
    after it the step list shows every step as pending, the "Pipeline
    Completed" card is not shown and no retry is offered.  Pressing Play
    then, on a page with a parsed pipeline, opens no new run (the cursor
    is at 7, not 0): it only sets the running flag, and the list shows all
    seven steps as completed together with the card. *)
Theorem result_then_play_shows_completion (result : JSON) (s : State) :
  let s1 := final (onResult rt result s) in
  let s2 := final (handlePlay rt s1) in
  (∀ i, shownStatus s1 i = pending)
  ∧ shownCompletion s1 = false
  ∧ retryOffered s1 = false
  ∧ (truthy (pipelineData s) = true →
     effects s2 = effects s1
     ∧ shownCompletion s2 = true
     ∧ ∀ i, i < 7 → shownStatus s2 i = completed).
Proof.
  cbv zeta. destruct (onResult_page result s) as [Hpd Hp].
  pose proof (onResult_isRunning rt result s) as Hr.
  pose proof (onResult_currentStep rt result s) as Hc.
  pose proof (onResult_failedAgent rt result s) as Hfa.
  set (s1 := final (onResult rt result s)) in *.
  split; [intros i; apply shownStatus_stopped; by rewrite Hr|].
  split; [unfold shownCompletion; by rewrite Hr|].
  split; [unfold retryOffered; rewrite Hfa; apply andb_false_r|].
  intros Htr. rewrite handlePlay_resume by (rewrite ?Hpd, ?Hc; done).
  cbn [final]. split; [done|].
  split; [unfold shownCompletion; cbn; by rewrite Hc|].
  intros i Hi. rewrite shownStatus_running by done. cbn. rewrite Hc.
  by rewrite (proj2 (Z.ltb_lt _ _) Hi).
Qed.


End ViewsAfterTheRun.

(** * The Improved Code tab *)

Section ImprovedCodeTab.

Import DetailPanel.

Context {File : Type}.

(** X23. For props of the shapes [DetailPanelProps] declares
    ([improvedFiles] an array, [realtimeData.improved_code] an array or
    absent, [improvedCode] a string), the number of files announced in the
    header of the Improved Code tab is the number of blocks rendered under
    it: the files mapped to blocks plus the one "Legacy Format" block when
    that is shown.  The legacy block and the file blocks never appear
    together, and when nothing is there to show no file is rendered. *)
Theorem file_count_matches_blocks
    (improvedFiles : list File) (improved_code : option (list File))
    (improvedCode : string) :
  let files := renderedFiles File improvedFiles improved_code in
  let legacy := legacyShown File improvedFiles improved_code improvedCode in
  (hasImproved File improvedFiles improved_code improvedCode = true →
   fileCount File improvedFiles improved_code
   = (length files + if legacy then 1 else 0)%nat)
  ∧ (legacy = true → files = [])
  ∧ (hasImproved File improvedFiles improved_code improvedCode = false →
     files = [] ∧ legacy = false).
Proof.
  cbv zeta. unfold hasImproved, fileCount, renderedFiles, legacyShown.
  destruct improvedFiles as [|f fs], improved_code as [[|g gs]|],
    (bool_decide (improvedCode = ""));
    cbn; repeat split; intros; try done; lia.
Qed.

End ImprovedCodeTab.

Section DownloadName.

Import DetailPanel.

Lemma split_slash_nonempty (s : string) : split_slash s ≠ [].
Proof. destruct s as [|c s]; cbn; [done|]. by case_bool_decide; destruct (split_slash s). Qed.

Lemma split_slash_plain (s : string) : has_slash s = false → split_slash s = [s].
Proof.
  induction s as [|c s IH]; cbn; [done|].
  intros H. apply orb_false_iff in H as [Hc Hs]. rewrite Hc.
  by rewrite (IH Hs).
Qed.

Lemma split_slash_app (d r : string) :
  split_slash (d +:+ "/" +:+ r) = split_slash d ++ split_slash r.
Proof.
  induction d as [|c d IH]; [done|].
  change (String c d +:+ "/" +:+ r) with (String c (d +:+ "/" +:+ r)).
  cbn [split_slash]. rewrite IH.
  case_bool_decide; [done|].
  pose proof (split_slash_nonempty d).
  by destruct (split_slash d).
Qed.

Lemma split_slash_segments (s : string) :
  Forall (λ seg, has_slash seg = false) (split_slash s).
Proof.
  induction s as [|c s IH]; cbn; [by repeat constructor|].
  case_bool_decide as Hc; [by constructor|].
  destruct (split_slash s) as [|h t]; [repeat constructor; cbn|].
  - by rewrite bool_decide_eq_false_2.
  - inversion IH; subst. constructor; [|done]. cbn.
    by rewrite bool_decide_eq_false_2.
Qed.

(** X24. The name under which an improved file is downloaded is what
    follows the last slash of its path: for a name with no slash,
    [dir/name] and [name] alone both download as [name].  A path that ends
    in a slash, the empty path included, downloads as [improved-code.py];
    so the name is never empty, and it never holds a slash. *)
Theorem download_name_is_last_segment (dir name path : string) :
  (has_slash name = false → name ≠ "" →
   downloadName (dir +:+ "/" +:+ name) = name ∧ downloadName name = name)
  ∧ downloadName (dir +:+ "/") = "improved-code.py"
  ∧ downloadName "" = "improved-code.py"
  ∧ has_slash (downloadName path) = false
  ∧ (0 < String.length (downloadName path))%nat.
Proof.
  split; [|split; [|split; [done|split]]].
  - intros Hs Hne. unfold downloadName.
    rewrite split_slash_app, !(split_slash_plain name Hs), last_snoc.
    cbn. by rewrite bool_decide_eq_false_2.
  - unfold downloadName.
    change (dir +:+ "/") with (dir +:+ "/" +:+ "").
    rewrite split_slash_app. change (split_slash "") with [""].
    by rewrite last_snoc.
  - unfold downloadName. cbv zeta. case_bool_decide as Hn; [done|].
    pose proof (split_slash_segments path) as Hall.
    destruct (last (split_slash path)) as [seg|] eqn:Hlast; [|done].
    cbn. apply last_Some_elem_of in Hlast.
    by apply (proj1 (Forall_forall _ _) Hall).
  - unfold downloadName. cbv zeta. case_bool_decide as Hn; [cbn; lia|].
    destruct (default "" (last (split_slash path))); [done|cbn; lia].
Qed.

End DownloadName.

Section StreamError.

Variable rt : Runtime.

(** X12. A stream error in the middle of a run is undone, on screen, by
    Retry.  On a page that is running and not paused, with a parsed
    pipeline and the cursor off zero: after the error every step is shown
    pending and Retry is offered; pressing it makes no call, so that the
    one destructive toast is all the error and the retry emitted, and the
    step list shows each step as it did before the error, over the same
    status table, result, files and [realtimeData]. *)
Theorem stream_error_then_retry_restores_view (message : string) (s : State) :
  isRunning s = true → isPaused s = false →
  truthy (pipelineData s) = true → currentStep s ≠ 0 →
  let s1 := final (onError rt message s) in
  let s2 := final (handleRetryAgent rt s1) in
  let kept s' :=
    (currentStep s', stepStatuses s', pipelineResult s', improvedFiles s',
     improvedCode s', realtimeData s', pipelineData s') in
  (∀ i, shownStatus s1 i = pending)
  ∧ retryOffered s1 = true
  ∧ effects s2 = effects s ++ [Toast "Pipeline Failed" message true]
  ∧ (∀ i, shownStatus s2 i = shownStatus s i)
  ∧ retryOffered s2 = false
  ∧ kept s2 = kept s.
Proof.
  intros Hr Hp Hpd Hc. cbv zeta.
  rewrite (handleRetryAgent_run rt _ "pipeline") by done.
  rewrite handlePlay_resume by done.
  split; [intros i; by apply shownStatus_stopped|].
  split; [unfold retryOffered; cbn; by rewrite Hpd|].
  split; [done|].
  split; [intros i; unfold shownStatus; cbn; by rewrite Hr, Hp|].
  split; [unfold retryOffered; cbn; apply andb_false_r|done].
Qed.

End StreamError.

(** * The step list as a progress bar *)

(** X25. The step list reads the cursor alone, never the status table: it
    shows no step as [error], whatever has failed; the steps shown
    completed are exactly those below the cursor while a run is shown, so
    below a completed step every step is completed; and at most one step,
    the one at the cursor, is shown processing.  The "Pipeline Completed"
    card appears only when all seven steps are shown completed. *)
Theorem step_list_is_a_progress_bar (s : State) (i j : Z) :
  shownStatus s i ≠ error_
  ∧ (shownStatus s i = completed → j ≤ i → shownStatus s j = completed)
  ∧ (shownStatus s i = processing → shownStatus s j = processing → i = j)
  ∧ (shownStatus s i = processing → j < i → shownStatus s j = completed)
  ∧ (shownCompletion s = true → j < 7 → shownStatus s j = completed).
Proof.
  unfold shownStatus, shownCompletion, PipelineVisualization.getStepStatus,
    PipelineVisualization.completionShown.
  change (Z.of_nat (length PipelineVisualization.pipelineSteps)) with 7.
  destruct (isRunning s && negb (isPaused s)); cbn [negb andb].
  - repeat split; intros; repeat case_match; try done; lia.
  - by repeat split.
Qed.

(** ** The further theorems with premises, at the scenarios *)

(** X1 at Scenario A, failure included, from the opened run. *)
Lemma stream_keeps_cursor_in_range_at_scenarioA :
  0 ≤ currentStep started ≤ 7
  ∧ 0 ≤ currentStep (final (deliver demo (scenarioA_progress ++ [improve_failed])
                              started)) ≤ 7.
Proof.
  assert (0 ≤ currentStep started ≤ 7) as H by (vm_compute; split; discriminate).
  split; [exact H|].
  exact (stream_keeps_cursor_in_range demo
           (scenarioA_progress ++ [improve_failed]) started H).
Defined.

(** X5 at Scenario A: the diagnosis is reported twice. *)
Lemma event_replay_is_idempotent_at_scenarioA :
  let e := at_ "diagnosis_agent" Success
             (obj [("baseline_metrics", obj [("accuracy", JNum (75 # 100))])]) in
  let s1 := final (onEvent demo e improving) in
  let s2 := final (onEvent demo e s1) in
  is_failed (status e) = false
  ∧ currentStep s2 = currentStep s1
  ∧ stepStatuses s2 = stepStatuses s1
  ∧ realtimeData s2 = realtimeData s1.
Proof.
  cbv zeta.
  set (e := at_ "diagnosis_agent" Success
              (obj [("baseline_metrics", obj [("accuracy", JNum (75 # 100))])])).
  assert (is_failed (status e) = false) as Hf by reflexivity.
  assert (bool_decide (agent e = "ml_improvement_agent") && is_success (status e)
          = false) as Hm by (vm_compute; reflexivity).
  destruct (event_replay_is_idempotent demo e improving Hf Hm)
    as (H1 & H2 & _ & _ & _ & _ & H7).
  split; [exact Hf|]. split; [exact H2|]. split; [exact H1|]. exact H7.
Defined.



(** X12 at Scenario A: the stream breaks with the cursor at 4. *)
Lemma stream_error_then_retry_restores_view_at_scenarioA :
  let s1 := final (onError demo "connection lost" improving) in
  let s2 := final (handleRetryAgent demo s1) in
  currentStep improving = 4
  ∧ shownStatus s1 3 = pending
  ∧ retryOffered s1 = true
  ∧ effects s2 = effects improving ++ [Toast "Pipeline Failed" "connection lost" true]
  ∧ shownStatus s2 3 = completed
  ∧ shownStatus s2 4 = processing.
Proof.
  cbv zeta.
  assert (currentStep improving = 4) as Hc by (vm_compute; reflexivity).
  assert (currentStep improving ≠ 0) as Hnz by (rewrite Hc; discriminate).
  assert (isRunning improving = true) as Hr by (vm_compute; reflexivity).
  assert (isPaused improving = false) as Hp by (vm_compute; reflexivity).
  assert (truthy (pipelineData improving) = true) as Hpd by (vm_compute; reflexivity).
  destruct (stream_error_then_retry_restores_view demo "connection lost" improving
              Hr Hp Hpd Hnz) as (H1 & H2 & H3 & H4 & _).
  split; [exact Hc|]. split; [exact (H1 3)|]. split; [exact H2|].
  split; [exact H3|].
  split; [rewrite (H4 3)|rewrite (H4 4)]; vm_compute; reflexivity.
Defined.

(** X13 on the parsed page: nine presses of Step. *)
Lemma step_button_stops_at_last_step_on_page :
  truthy (pipelineData page) = true
  ∧ currentStep page = 0
  ∧ currentStep (final (steps_pressed 9 page)) = 6
  ∧ playButton (final (handleStep page)) = PlaybackControls.Resume.
Proof.
  assert (truthy (pipelineData page) = true) as Hpd by (vm_compute; reflexivity).
  assert (currentStep page = 0) as Hc by (vm_compute; reflexivity).
  assert (currentStep page ≤ 6) as Hle by (rewrite Hc; discriminate).
  assert (currentStep page < 6) as Hlt by (rewrite Hc; reflexivity).
  destruct (step_button_stops_at_last_step 9 page Hpd Hle) as [H1 H2].
  destruct (H2 Hlt) as (_ & H3 & _).
  split; [exact Hpd|]. split; [exact Hc|].
  split; [rewrite H1, Hc; reflexivity|exact H3].
Defined.

(** X14 at Scenario A, with the cursor at 4. *)
Lemma pause_then_resume_restores_at_scenarioA :
  let s1 := final (handlePause demo improving) in
  let s2 := final (handlePlay demo s1) in
  isRunning improving = true ∧ isPaused improving = false
  ∧ playButton s1 = PlaybackControls.Resume
  ∧ shownStatus s1 3 = pending
  ∧ run_atoms s2 = run_atoms improving
  ∧ effects s2 = effects improving
  ∧ shownStatus s2 3 = completed.
Proof.
  cbv zeta.
  assert (currentStep improving ≠ 0) as Hnz by (vm_compute; discriminate).
  assert (isRunning improving = true) as Hr by (vm_compute; reflexivity).
  assert (isPaused improving = false) as Hp by (vm_compute; reflexivity).
  assert (truthy (pipelineData improving) = true) as Hpd by (vm_compute; reflexivity).
  destruct (pause_then_resume_restores demo improving Hr Hp Hpd Hnz)
    as (H1 & H2 & H3 & _ & H5 & H6).
  split; [exact Hr|]. split; [exact Hp|]. split; [exact H1|].
  split; [exact (H2 3)|]. split; [exact H3|]. split; [exact H5|].
  rewrite (H6 3). vm_compute. reflexivity.
Defined.

(** X15 on the run just opened: Pause, then the button again. *)
Lemma resume_at_zero_opens_second_run_at_started :
  let s2 := final (handlePlay demo (final (handlePause demo started))) in
  currentStep started = 0
  ∧ length (effects started) = 1%nat
  ∧ length (effects s2) = 2%nat
  ∧ isPaused s2 = true.
Proof.
  cbv zeta.
  assert (currentStep started = 0) as Hc by (vm_compute; reflexivity).
  assert (truthy (pipelineData started) = true) as Hpd by (vm_compute; reflexivity).
  destruct (resume_at_zero_opens_second_run demo started Hpd Hc)
    as (H1 & _ & _ & _ & _ & _ & H7).
  split; [exact Hc|]. split; [vm_compute; reflexivity|].
  split; [rewrite H1, length_app; vm_compute; reflexivity|exact H7].
Defined.

(** X20 at Scenario A: the diagnosis succeeds again, and an agent outside
    the step order reports. *)
Lemma success_moves_the_step_list_at_scenarioA :
  let e := at_ "evaluation_agent" Success JUndefined in
  stepOrder !! 3%nat = Some "diagnosis_agent"
  ∧ shownStatus (final (onEvent demo (at_ "diagnosis_agent" Success JUndefined)
                          improving)) 3 = completed
  ∧ shownStatus (final (onEvent demo (at_ "diagnosis_agent" Success JUndefined)
                          improving)) 4 = processing
  ∧ shownStatus (final (onEvent demo e improving)) 4 = shownStatus improving 4.
Proof.
  cbv zeta.
  assert (isRunning improving = true) as Hr by (vm_compute; reflexivity).
  assert (isPaused improving = false) as Hp by (vm_compute; reflexivity).
  assert (stepOrder !! 3%nat = Some "diagnosis_agent") as Hn by reflexivity.
  assert (agent (at_ "evaluation_agent" Success JUndefined) ∉ stepOrder) as Hu.
  { apply (bool_decide_unpack _). vm_compute. exact I. }
  destruct (success_moves_the_step_list demo 3 "diagnosis_agent"
              "2025-01-01T12:00:00.000Z" JUndefined None
              (at_ "evaluation_agent" Success JUndefined) improving Hr Hp)
    as [H1 H2].
  split; [exact Hn|].
  split; [exact (H1 Hn 3)|]. split; [exact (H1 Hn 4)|].
  exact (H2 Hu eq_refl 4).
Defined.

